(** * MCP weather servers: the JSON-RPC protocol engine

    A shallow embedding of the line-oriented JSON-RPC engines of
    [minimal_weather_server.py], [simple_weather_server.py] and the tool
    handler of [weather_server.py].

    Python values are modelled as follows.
    - [str] is a Rocq [string] holding the UTF-8 bytes of the text.
    - the values [json.loads] can return are the type [json]; Python's
      [None] is [JNull], [int] is an unbounded [Z], [float] a binary64
      float, a [dict] an association list in insertion order.
    - a call that may raise returns an [outcome]: [Returned v] or
      [Raised e].
    - what the interpreter and the outside world provide ([json.loads],
      [json.dumps], [repr], the environment, the HTTP exchange) is a
      [runtime] record the servers are parameterised by. *)

From Stdlib Require Import String Ascii List ZArith Bool Lia DecimalString.
From Stdlib Require Import Floats.PrimFloat Floats.SpecFloat Floats.FloatOps.
Import ListNotations.
Open Scope string_scope.

(** ** Values *)

#[local] Set Warnings "-register-all".

Inductive json : Type :=
| JNull
| JBool (b : bool)
| JNum (n : Z)
| JFloat (f : float)
| JStr (s : string)
| JArr (items : list json)
| JObj (fields : list (string * json)).

Definition dict : Type := list (string * json).

(** Exceptions the modelled code meets; [exn_str] is Python's [str(e)]. *)
Inductive exn : Type :=
| AttributeError (msg : string)
| KeyError (key : string)
| Exception (msg : string).

Definition exn_str (e : exn) : string :=
  match e with
  | AttributeError msg => msg
  | KeyError key => "'" ++ key ++ "'"
  | Exception msg => msg
  end.

Inductive outcome (A : Type) : Type :=
| Returned (a : A)
| Raised (e : exn).
Arguments Returned {A} a.
Arguments Raised {A} e.

Definition bind {A B : Type} (m : outcome A) (k : A -> outcome B) : outcome B :=
  match m with
  | Returned a => k a
  | Raised e => Raised e
  end.

Declare Scope outcome_scope.
Delimit Scope outcome_scope with outcome.
Notation "x <- m ;; k" := (bind m (fun x => k))
  (at level 61, m at next level, right associativity) : outcome_scope.
Open Scope outcome_scope.

(** ** Python built-ins on JSON values *)

(** [type(v).__name__], as it shows in an [AttributeError] message. *)
Definition type_name (v : json) : string :=
  match v with
  | JNull => "NoneType"
  | JBool _ => "bool"
  | JNum _ => "int"
  | JFloat _ => "float"
  | JStr _ => "str"
  | JArr _ => "list"
  | JObj _ => "dict"
  end.

Fixpoint dict_lookup (k : string) (d : dict) : option json :=
  match d with
  | [] => None
  | (k', v) :: rest => if String.eqb k k' then Some v else dict_lookup k rest
  end.

(** [d.get(k, default)] on a dict. *)
Definition dict_get (d : dict) (k : string) (default : json) : json :=
  match dict_lookup k d with
  | Some v => v
  | None => default
  end.

(** [v.get(k, default)] on any value: only a dict has the method. *)
Definition py_get (v : json) (k : string) (default : json) : outcome json :=
  match v with
  | JObj d => Returned (dict_get d k default)
  | _ => Raised (AttributeError
                   ("'" ++ type_name v ++ "' object has no attribute 'get'"))
  end.

(** [v == s] for a string literal [s]. *)
Definition is_str (v : json) (s : string) : bool :=
  match v with
  | JStr s' => String.eqb s' s
  | _ => false
  end.

(** Truth value of a JSON value, as [if v:] and [not v] test it. *)
Definition truthy (v : json) : bool :=
  match v with
  | JNull => false
  | JBool b => b
  | JNum n => negb (Z.eqb n 0)
  | JFloat f => negb (PrimFloat.eqb f 0%float)
  | JStr s => negb (String.eqb s EmptyString)
  | JArr l => match l with [] => false | _ => true end
  | JObj d => match d with [] => false | _ => true end
  end.

Definition str_of_Z (z : Z) : string := NilZero.string_of_int (Z.to_int z).

(** ** [str.strip]

    A [str] is held as UTF-8 bytes, so a whitespace character is one of the
    byte sequences below: the code points Python's [str.isspace] accepts. *)

Definition bytes (l : list nat) : string :=
  string_of_list_ascii (map ascii_of_nat l).

Definition whitespace : list string :=
  map bytes
    [ [9]; [10]; [11]; [12]; [13]; [28]; [29]; [30]; [31]; [32];
      [194; 133]; [194; 160]; [225; 154; 128];
      [226; 128; 128]; [226; 128; 129]; [226; 128; 130]; [226; 128; 131];
      [226; 128; 132]; [226; 128; 133]; [226; 128; 134]; [226; 128; 135];
      [226; 128; 136]; [226; 128; 137]; [226; 128; 138];
      [226; 128; 168]; [226; 128; 169]; [226; 128; 175];
      [226; 129; 159]; [227; 128; 128] ].

Definition string_rev (s : string) : string :=
  string_of_list_ascii (rev (list_ascii_of_string s)).

Fixpoint drop (n : nat) (s : string) : string :=
  match n, s with
  | S n', String _ s' => drop n' s'
  | _, _ => s
  end.

(** Remove leading members of [ws] from [s]; [fuel] bounds the number of
    characters removed and [String.length s] is always enough. *)
Fixpoint lstrip_with (ws : list string) (fuel : nat) (s : string) : string :=
  match fuel with
  | O => s
  | S fuel' =>
      match find (fun w => prefix w s) ws with
      | Some w => lstrip_with ws fuel' (drop (String.length w) s)
      | None => s
      end
  end.

Definition lstrip (s : string) : string :=
  lstrip_with whitespace (String.length s) s.

Definition rstrip (s : string) : string :=
  string_rev
    (lstrip_with (map string_rev whitespace) (String.length s) (string_rev s)).

Definition strip (s : string) : string := rstrip (lstrip s).

(** ** The runtime

    What the servers take from the interpreter and from the world. *)

(** What the HTTP exchange inside a fetcher's [try] block comes to. *)
Inductive fetched : Type :=
| Report (text : string)                  (* status 200, body formatted *)
| BadStatus (status : Z)                  (* [response.status != 200] *)
| HTTPError (code : Z) (reason : string)  (* [urllib.error.HTTPError] *)
| Failed (msg : string).                  (* any other [Exception] *)

Record runtime : Type := {
  (** [json.loads]: the value, or the text of the [JSONDecodeError]. *)
  json_loads : string -> json + string;
  (** [json.dumps]. *)
  json_dumps : json -> string;
  (** [repr] of a value; [str] of a float or a container is its [repr]. *)
  py_repr : json -> string;
  (** [os.getenv("OPENWEATHER_API_KEY")]. *)
  api_key : option string;
  (** The OpenWeatherMap exchange for the current weather of a location. *)
  fetch_weather : string -> json -> fetched;
  (** The same for a forecast of a number of days. *)
  fetch_forecast : string -> json -> json -> fetched;
  (** The [try] block of [simple_weather_server.get_weather] for a key and a
      location: the report it returns or the exception that leaves it. *)
  fetch_simple : string -> json -> outcome string;
  (** The [httpx] exchange of [weather_server.py] for an endpoint, a location
      and units: the status code and what formatting the body comes to, or
      the exception [client.get] raises. *)
  http_get : string -> json -> json -> outcome (Z * outcome string)
}.

(** [str(v)], as an f-string formats a value. *)
Definition py_str (rt : runtime) (v : json) : string :=
  match v with
  | JNull => "None"
  | JBool true => "True"
  | JBool false => "False"
  | JNum n => str_of_Z n
  | JStr s => s
  | _ => py_repr rt v
  end.

(** [not api_key]: the variable is unset or empty. *)
Definition no_key (k : option string) : bool :=
  match k with
  | None => true
  | Some s => String.eqb s EmptyString
  end.

Definition key_text (k : option string) : string :=
  match k with
  | None => EmptyString
  | Some s => s
  end.

(** ** Envelopes *)

Definition success_envelope (request_id result : json) : json :=
  JObj [("jsonrpc", JStr "2.0"); ("id", request_id); ("result", result)].

Definition error_envelope (request_id : json) (code : Z) (message : string)
  : json :=
  JObj [("jsonrpc", JStr "2.0"); ("id", request_id);
        ("error", JObj [("code", JNum code); ("message", JStr message)])].

Definition text_content (text : string) : json :=
  JObj [("content", JArr [JObj [("type", JStr "text"); ("text", JStr text)]])].

(** * [minimal_weather_server.py] *)

Module Minimal.

(** An [MCPWeatherServer] object: its attribute and the two coroutine
    methods [process_request] reaches through [self]. *)
Record MCPWeatherServer : Type := {
  server_info : json;
  get_weather : json -> outcome string;
  get_weather_forecast : json -> json -> outcome string
}.

Definition tools : list json :=
  [ JObj [("name", JStr "get_weather");
          ("description", JStr "Get current weather for a location");
          ("inputSchema",
            JObj [("type", JStr "object");
                  ("properties",
                    JObj [("location",
                            JObj [("type", JStr "string");
                                  ("description",
                                    JStr "City name (e.g., 'London', 'New York')")])]);
                  ("required", JArr [JStr "location"])])];
    JObj [("name", JStr "get_weather_forecast");
          ("description", JStr "Get 5-day weather forecast for a location");
          ("inputSchema",
            JObj [("type", JStr "object");
                  ("properties",
                    JObj [("location",
                            JObj [("type", JStr "string");
                                  ("description",
                                    JStr "City name (e.g., 'London', 'New York')")]);
                          ("days",
                            JObj [("type", JStr "number");
                                  ("description",
                                    JStr "Number of days to forecast (1-5)");
                                  ("minimum", JNum 1);
                                  ("maximum", JNum 5);
                                  ("default", JNum 5)])]);
                  ("required", JArr [JStr "location"])])] ].

Section Server.

Variable rt : runtime.

(** The body of a fetcher after the HTTP exchange: every way out of the
    [try] block is a returned string. *)
Definition report_of (location : json) (r : fetched) : string :=
  match r with
  | Report text => text
  | BadStatus status =>
      "❌ Error: Weather API returned status " ++ str_of_Z status
  | HTTPError code reason =>
      if Z.eqb code 404
      then "❌ Error: Location '" ++ py_str rt location ++ "' not found"
      else "❌ Error: HTTP " ++ str_of_Z code ++ " - " ++ reason
  | Failed msg => "❌ Error: " ++ msg
  end.

Definition get_weather_impl (location : json) : outcome string :=
  if no_key (api_key rt)
  then Returned "❌ Error: OPENWEATHER_API_KEY environment variable not set"
  else if negb (truthy location)
  then Returned "❌ Error: No location provided"
  else Returned
         (report_of location (fetch_weather rt (key_text (api_key rt)) location)).

Definition get_weather_forecast_impl (location days : json) : outcome string :=
  if no_key (api_key rt)
  then Returned "❌ Error: OPENWEATHER_API_KEY environment variable not set"
  else if negb (truthy location)
  then Returned "❌ Error: No location provided"
  else Returned
         (report_of location
            (fetch_forecast rt (key_text (api_key rt)) location days)).

(** [MCPWeatherServer()]. *)
Definition new : MCPWeatherServer :=
  {| server_info :=
       JObj [("name", JStr "weather-server"); ("version", JStr "1.0.0")];
     get_weather := get_weather_impl;
     get_weather_forecast := get_weather_forecast_impl |}.

(** The [try]/[except Exception] around a tool body in [process_request]. *)
Definition tool_reply (request_id : json) (label : string)
  (body : outcome string) : json :=
  match body with
  | Returned text => success_envelope request_id (text_content text)
  | Raised e => error_envelope request_id (-32603) (label ++ exn_str e)
  end.

Definition process_request (self : MCPWeatherServer) (data : json)
  : outcome (option json) :=
  method <- py_get data "method" JNull ;;
  params <- py_get data "params" (JObj []) ;;
  request_id <- py_get data "id" JNull ;;
  if is_str method "initialize" then
    Returned (Some (success_envelope request_id
      (JObj [("protocolVersion", JStr "2024-11-05");
             ("capabilities", JObj [("tools", JObj [])]);
             ("serverInfo", server_info self)])))
  else if is_str method "notifications/initialized" then
    Returned None
  else if is_str method "tools/list" then
    Returned (Some (success_envelope request_id (JObj [("tools", JArr tools)])))
  else if is_str method "tools/call" then
    tool_name <- py_get params "name" JNull ;;
    arguments <- py_get params "arguments" (JObj []) ;;
    if is_str tool_name "get_weather" then
      Returned (Some (tool_reply request_id "Weather API error: "
        (location <- py_get arguments "location" (JStr EmptyString) ;;
         get_weather self location)))
    else if is_str tool_name "get_weather_forecast" then
      Returned (Some (tool_reply request_id "Forecast API error: "
        (location <- py_get arguments "location" (JStr EmptyString) ;;
         days <- py_get arguments "days" (JNum 5) ;;
         get_weather_forecast self location days)))
    else
      Returned (Some (error_envelope request_id (-32601)
        ("Unknown tool: " ++ py_str rt tool_name)))
  else
    Returned (Some (error_envelope request_id (-32601)
      ("Unknown method: " ++ py_str rt method))).

Definition parse_error : json := error_envelope JNull (-32700) "Parse error".

(** [json.dumps(response) if response else None]. *)
Definition dump_response (response : option json) : option string :=
  match response with
  | Some r => if truthy r then Some (json_dumps rt r) else None
  | None => None
  end.

Definition handle_message (self : MCPWeatherServer) (message : string)
  : outcome (option string) :=
  match json_loads rt (strip message) with
  | inr _ => Returned (Some (json_dumps rt parse_error))
  | inl data =>
      match process_request self data with
      | Returned response => Returned (dump_response response)
      | Raised e =>
          request_id <- py_get data "id" JNull ;;
          Returned (Some (json_dumps rt
            (error_envelope request_id (-32603)
               ("Internal error: " ++ exn_str e))))
      end
  end.

(** [if response:] on an [Optional[str]]. *)
Definition to_print (response : option string) : list string :=
  match response with
  | Some s => if String.eqb s EmptyString then [] else [s]
  | None => []
  end.

(** The loop of [main] over the lines [sys.stdin.readline] returns, giving
    the lines printed.  An empty read is the end of the input; an exception
    leaving [handle_message] ends the loop in [main]'s handler. *)
Fixpoint serve (self : MCPWeatherServer) (stdin : list string) : list string :=
  match stdin with
  | [] => []
  | line :: rest =>
      if String.eqb line EmptyString then []
      else
        match handle_message self line with
        | Returned response => (to_print response ++ serve self rest)%list
        | Raised e =>
            [json_dumps rt
               (error_envelope JNull (-32603) ("Server error: " ++ exn_str e))]
        end
  end.

Definition main (stdin : list string) : list string := serve new stdin.

End Server.

End Minimal.

(** * [simple_weather_server.py] *)

Module Simple.

(** A [SimpleMCPServer] object.  Its methods take the object and give it
    back, as [add_tool] updates [self.tools] in place. *)
Record SimpleMCPServer : Type := {
  name : string;
  tools : list json
}.

(** [SimpleMCPServer(name)]. *)
Definition new (name : string) : SimpleMCPServer :=
  {| name := name; tools := [] |}.

Definition add_tool (self : SimpleMCPServer)
  (name description : string) (schema : json) : SimpleMCPServer :=
  {| name := Simple.name self;
     tools := tools self ++
              [JObj [("name", JStr name); ("description", JStr description);
                     ("inputSchema", schema)]] |}.

Section Server.

Variable rt : runtime.

Definition get_weather (location : json) : outcome string :=
  if no_key (api_key rt)
  then Returned "Error: OPENWEATHER_API_KEY not set"
  else if negb (truthy location)
  then Returned "Error: Location not provided"
  else
    match fetch_simple rt (key_text (api_key rt)) location with
    | Returned report => Returned report
    | Raised e =>
        Returned ("Error getting weather for " ++ py_str rt location ++ ": "
                  ++ exn_str e)
    end.

(** [request.get("id", 1)], then [1] again when that is [None]. *)
Definition request_id_of (request : json) : outcome json :=
  request_id <- py_get request "id" (JNum 1) ;;
  Returned (match request_id with JNull => JNum 1 | _ => request_id end).

(** The [try]/[except Exception] around the tool dispatch. *)
Definition tool_reply (request_id : json) (body : outcome json) : json :=
  match body with
  | Returned envelope => envelope
  | Raised e =>
      error_envelope request_id (-32603)
        ("Tool execution error: " ++ exn_str e)
  end.

Definition handle_request (self : SimpleMCPServer) (request : json)
  : outcome (option json) * SimpleMCPServer :=
  (method <- py_get request "method" JNull ;;
   params <- py_get request "params" (JObj []) ;;
   request_id <- request_id_of request ;;
   if is_str method "initialize" then
     Returned (Some (success_envelope request_id
       (JObj [("protocolVersion", JStr "2024-11-05");
              ("capabilities", JObj [("tools", JObj [])]);
              ("serverInfo",
                JObj [("name", JStr (name self));
                      ("version", JStr "1.0.0")])])))
   else if is_str method "notifications/initialized" then
     Returned None
   else if is_str method "tools/list" then
     Returned (Some (success_envelope request_id
       (JObj [("tools", JArr (tools self))])))
   else if is_str method "tools/call" then
     tool_name <- py_get params "name" JNull ;;
     arguments <- py_get params "arguments" (JObj []) ;;
     Returned (Some (tool_reply request_id
       (if is_str tool_name "get_weather" then
          location <- py_get arguments "location" (JStr EmptyString) ;;
          result <- get_weather location ;;
          Returned (success_envelope request_id (text_content result))
        else
          Returned (error_envelope request_id (-32601)
            ("Unknown tool: " ++ py_str rt tool_name)))))
   else
     Returned (Some (error_envelope request_id (-32601)
       ("Unknown method: " ++ py_str rt method))),
   self).

Definition weather_schema : json :=
  JObj [("type", JStr "object");
        ("properties",
          JObj [("location",
                  JObj [("type", JStr "string");
                        ("description", JStr "City name")])]);
        ("required", JArr [JStr "location"])].

(** The server [main] builds before its loop. *)
Definition main_server : SimpleMCPServer :=
  add_tool (new "simple-weather-server")
    "get_weather" "Get current weather for a location" weather_schema.

(** One turn of the loop in [main] on a line read: the lines printed and the
    server afterwards. *)
Definition turn (self : SimpleMCPServer) (line : string)
  : list string * SimpleMCPServer :=
  let line := strip line in
  if String.eqb line EmptyString then ([], self)
  else
    match json_loads rt line with
    | inr e =>
        ([json_dumps rt
            (error_envelope JNull (-32700) ("Parse error: " ++ e))], self)
    | inl request =>
        match handle_request self request with
        | (Returned (Some response), self') => ([json_dumps rt response], self')
        | (Returned None, self') => ([], self')
        | (Raised e, self') =>
            ([json_dumps rt
                (error_envelope JNull (-32603)
                   ("Internal error: " ++ exn_str e))], self')
        end
    end.

(** The loop of [main] over the lines [sys.stdin.readline] returns; an empty
    read is the end of the input. *)
Fixpoint serve (self : SimpleMCPServer) (stdin : list string)
  : list string * SimpleMCPServer :=
  match stdin with
  | [] => ([], self)
  | line :: rest =>
      if String.eqb line EmptyString then ([], self)
      else
        let (out, self') := turn self line in
        let (outs, self'') := serve self' rest in
        ((out ++ outs)%list, self'')
  end.

Definition main (stdin : list string) : list string :=
  fst (serve main_server stdin).

End Server.

End Simple.

(** * [weather_server.py]: the tool handler registered with the SDK *)

Module Sdk.

Record TextContent : Type := {
  type : string;
  text : string
}.

Section Handler.

Variable rt : runtime.

Definition get_current_weather (location units : json) : outcome string :=
  response <- http_get rt "/weather" location units ;;
  let (status_code, weather_info) := response in
  if negb (Z.eqb status_code 200)
  then Returned ("Error: Could not get weather for " ++ py_str rt location
                 ++ ". Status: " ++ str_of_Z status_code)
  else weather_info.

Definition get_weather_forecast (location units : json) : outcome string :=
  response <- http_get rt "/forecast" location units ;;
  let (status_code, forecast_info) := response in
  if negb (Z.eqb status_code 200)
  then Returned ("Error: Could not get forecast for " ++ py_str rt location
                 ++ ". Status: " ++ str_of_Z status_code)
  else forecast_info.

(** [arguments["location"]]. *)
Definition subscript (d : dict) (k : string) : outcome json :=
  match dict_lookup k d with
  | Some v => Returned v
  | None => Raised (KeyError k)
  end.

Definition call_tool (name : string) (arguments : dict) : list TextContent :=
  if no_key (api_key rt) then
    [{| type := "text";
        text := "Error: OpenWeatherMap API key not configured. Please set OPENWEATHER_API_KEY environment variable." |}]
  else
    match
      (if String.eqb name "get_current_weather" then
         location <- subscript arguments "location" ;;
         result <- get_current_weather location
                     (dict_get arguments "units" (JStr "metric")) ;;
         Returned [{| type := "text"; text := result |}]
       else if String.eqb name "get_weather_forecast" then
         location <- subscript arguments "location" ;;
         result <- get_weather_forecast location
                     (dict_get arguments "units" (JStr "metric")) ;;
         Returned [{| type := "text"; text := result |}]
       else
         Returned [{| type := "text";
                      text := "Error: Unknown tool '" ++ name ++ "'" |}])
    with
    | Returned contents => contents
    | Raised e =>
        [{| type := "text";
            text := "Error calling tool '" ++ name ++ "': " ++ exn_str e |}]
    end.

End Handler.

End Sdk.

(** * A reference runtime

    An executable [runtime] on which the servers run on concrete lines.  The
    results below hold for every runtime; this one serves to evaluate them.
    Its decoder reads JSON whose numbers are integers and whose strings have
    no [\u] escape, and rejects everything else with the message Python gives
    for a text that does not start with a value. *)

Module Reference.

Definition dquote : ascii := ascii_of_nat 34.
Definition backslash : ascii := ascii_of_nat 92.

(** Writes a JSON text with ['] where the text has a double quote. *)
Fixpoint q (s : string) : string :=
  match s with
  | EmptyString => EmptyString
  | String c rest =>
      String (if Ascii.eqb c "'" then dquote else c) (q rest)
  end.

(** ** Decoder *)

Fixpoint skip_ws (s : string) : string :=
  match s with
  | String c rest =>
      if orb (orb (Ascii.eqb c " ") (Ascii.eqb c (ascii_of_nat 9)))
             (orb (Ascii.eqb c (ascii_of_nat 10)) (Ascii.eqb c (ascii_of_nat 13)))
      then skip_ws rest else s
  | EmptyString => s
  end.

Definition digit_of (c : ascii) : option Z :=
  let n := nat_of_ascii c in
  if andb (48 <=? n)%nat (n <=? 57)%nat then Some (Z.of_nat (n - 48)) else None.

Fixpoint read_digits (acc : Z) (s : string) : Z * string :=
  match s with
  | String c rest =>
      match digit_of c with
      | Some d => read_digits (10 * acc + d) rest
      | None => (acc, s)
      end
  | EmptyString => (acc, s)
  end.

Definition starts_fraction (s : string) : bool :=
  match s with
  | String c _ => orb (Ascii.eqb c ".") (orb (Ascii.eqb c "e") (Ascii.eqb c "E"))
  | EmptyString => false
  end.

Definition read_nat (s : string) : option (Z * string) :=
  match s with
  | String c rest =>
      match digit_of c with
      | Some d =>
          let (n, rest') := if Z.eqb d 0 then (0%Z, rest) else read_digits d rest in
          if starts_fraction rest' then None else Some (n, rest')
      | None => None
      end
  | EmptyString => None
  end.

Definition unescape (c : ascii) : option ascii :=
  if Ascii.eqb c dquote then Some dquote
  else if Ascii.eqb c backslash then Some backslash
  else if Ascii.eqb c "/" then Some "/"%char
  else if Ascii.eqb c "b" then Some (ascii_of_nat 8)
  else if Ascii.eqb c "f" then Some (ascii_of_nat 12)
  else if Ascii.eqb c "n" then Some (ascii_of_nat 10)
  else if Ascii.eqb c "r" then Some (ascii_of_nat 13)
  else if Ascii.eqb c "t" then Some (ascii_of_nat 9)
  else None.

(** The characters of a string literal after its opening quote. *)
Fixpoint read_string (s : string) : option (string * string) :=
  match s with
  | EmptyString => None
  | String c rest =>
      if Ascii.eqb c dquote then Some (EmptyString, rest)
      else if Ascii.eqb c backslash then
        match rest with
        | String e rest' =>
            match unescape e, read_string rest' with
            | Some c', Some (text, after) => Some (String c' text, after)
            | _, _ => None
            end
        | EmptyString => None
        end
      else if (nat_of_ascii c <? 32)%nat then None
      else
        match read_string rest with
        | Some (text, after) => Some (String c text, after)
        | None => None
        end
  end.

(** [d[k] = v]: a key already there keeps its place. *)
Fixpoint dict_set (d : dict) (k : string) (v : json) : dict :=
  match d with
  | [] => [(k, v)]
  | (k', v') :: rest =>
      if String.eqb k k' then (k, v) :: rest else (k', v') :: dict_set rest k v
  end.

(** The items of an array after the first, up to the closing bracket. *)
Fixpoint read_items (value : string -> option (json * string))
  (fuel : nat) (acc : list json) (s : string) : option (json * string) :=
  match fuel with
  | O => None
  | S fuel' =>
      match skip_ws s with
      | String "]" rest => Some (JArr (rev acc), rest)
      | String "," rest =>
          match value rest with
          | Some (v, rest') => read_items value fuel' (v :: acc) rest'
          | None => None
          end
      | _ => None
      end
  end.

Definition read_member (value : string -> option (json * string)) (s : string)
  : option (string * json * string) :=
  match skip_ws s with
  | String c rest =>
      if Ascii.eqb c dquote then
        match read_string rest with
        | Some (k, after) =>
            match skip_ws after with
            | String ":" after' =>
                match value after' with
                | Some (v, rest') => Some (k, v, rest')
                | None => None
                end
            | _ => None
            end
        | None => None
        end
      else None
  | EmptyString => None
  end.

(** The members of an object after the first, up to the closing brace. *)
Fixpoint read_members (value : string -> option (json * string))
  (fuel : nat) (acc : dict) (s : string) : option (json * string) :=
  match fuel with
  | O => None
  | S fuel' =>
      match skip_ws s with
      | String "}" rest => Some (JObj acc, rest)
      | String "," rest =>
          match read_member value rest with
          | Some (k, v, rest') => read_members value fuel' (dict_set acc k v) rest'
          | None => None
          end
      | _ => None
      end
  end.

Definition literal (word : string) (v : json) (s : string)
  : option (json * string) :=
  if prefix word s then Some (v, drop (String.length word) s) else None.

Fixpoint read_value (fuel : nat) (s : string) : option (json * string) :=
  match fuel with
  | O => None
  | S fuel' =>
      match skip_ws s with
      | String "n" _ => literal "null" JNull (skip_ws s)
      | String "t" _ => literal "true" (JBool true) (skip_ws s)
      | String "f" _ => literal "false" (JBool false) (skip_ws s)
      | String "[" rest =>
          match skip_ws rest with
          | String "]" rest' => Some (JArr [], rest')
          | _ =>
              match read_value fuel' rest with
              | Some (v, rest') => read_items (read_value fuel') fuel' [v] rest'
              | None => None
              end
          end
      | String "{" rest =>
          match skip_ws rest with
          | String "}" rest' => Some (JObj [], rest')
          | _ =>
              match read_member (read_value fuel') rest with
              | Some (k, v, rest') =>
                  read_members (read_value fuel') fuel' [(k, v)] rest'
              | None => None
              end
          end
      | String "-" rest =>
          match read_nat rest with
          | Some (n, rest') => Some (JNum (- n), rest')
          | None => None
          end
      | String c rest =>
          if Ascii.eqb c dquote then
            match read_string rest with
            | Some (text, rest') => Some (JStr text, rest')
            | None => None
            end
          else
            match read_nat (String c rest) with
            | Some (n, rest') => Some (JNum n, rest')
            | None => None
            end
      | EmptyString => None
      end
  end.

Definition loads (s : string) : json + string :=
  match read_value (S (String.length s)) s with
  | Some (v, rest) =>
      match skip_ws rest with
      | EmptyString => inl v
      | _ => inr "Expecting value: line 1 column 1 (char 0)"
      end
  | None => inr "Expecting value: line 1 column 1 (char 0)"
  end.

(** ** Encoder

    [json.dumps] with its defaults: [", "] and [": "] as separators and every
    character outside printable ASCII escaped. *)

Definition hex_digit (n : N) : ascii :=
  ascii_of_N (if (n <? 10)%N then 48 + n else 87 + n).

Definition hex4 (n : N) : string :=
  String (hex_digit (N.shiftr n 12 mod 16))
    (String (hex_digit (N.shiftr n 8 mod 16))
       (String (hex_digit (N.shiftr n 4 mod 16))
          (String (hex_digit (n mod 16)) EmptyString))).

Definition continuation (c : ascii) : N := N.land (N_of_ascii c) 63.

(** The code points of a UTF-8 text; a byte that starts no sequence stands
    for itself. *)
Fixpoint code_points (s : string) : list N :=
  match s with
  | EmptyString => []
  | String b rest =>
      let n := N_of_ascii b in
      if (n <? 192)%N then n :: code_points rest
      else if (n <? 224)%N then
        match rest with
        | String c1 r =>
            (N.shiftl (N.land n 31) 6 + continuation c1)%N :: code_points r
        | _ => n :: code_points rest
        end
      else if (n <? 240)%N then
        match rest with
        | String c1 (String c2 r) =>
            (N.shiftl (N.land n 15) 12 + N.shiftl (continuation c1) 6
             + continuation c2)%N :: code_points r
        | _ => n :: code_points rest
        end
      else
        match rest with
        | String c1 (String c2 (String c3 r)) =>
            (N.shiftl (N.land n 7) 18 + N.shiftl (continuation c1) 12
             + N.shiftl (continuation c2) 6 + continuation c3)%N
            :: code_points r
        | _ => n :: code_points rest
        end
  end.

Definition u_escape (n : N) : string :=
  String backslash (String "u" (hex4 n)).

Definition escape (n : N) : string :=
  if (n =? 34)%N then String backslash (String dquote EmptyString)
  else if (n =? 92)%N then String backslash (String backslash EmptyString)
  else if (n =? 10)%N then String backslash "n"
  else if (n =? 13)%N then String backslash "r"
  else if (n =? 9)%N then String backslash "t"
  else if (n =? 12)%N then String backslash "f"
  else if (n =? 8)%N then String backslash "b"
  else if andb (32 <=? n)%N (n <=? 126)%N then String (ascii_of_N n) EmptyString
  else if (n <? 65536)%N then u_escape n
  else
    let v := (n - 65536)%N in
    u_escape (55296 + N.shiftr v 10) ++ u_escape (56320 + N.land v 1023).

Definition quoted (s : string) : string :=
  String dquote (String.concat EmptyString (map escape (code_points s)))
  ++ String dquote EmptyString.

Fixpoint trim_zeros (s : string) : string :=
  match s with
  | EmptyString => EmptyString
  | String c rest =>
      match trim_zeros rest with
      | EmptyString => if Ascii.eqb c "0" then EmptyString else String c EmptyString
      | kept => String c kept
      end
  end.

(** The digits of a finite float with mantissa [m] and exponent [e], written
    out in full where Python stops at the shortest digits that read back as
    the same float.  The reference decoder yields no float. *)
Definition float_digits (m : positive) (e : Z) : string :=
  if (0 <=? e)%Z then str_of_Z (Z.pos m * 2 ^ e) ++ ".0"
  else
    let k := (- e)%Z in
    let scaled := (Z.pos m * 5 ^ k)%Z in
    let whole := (scaled / 10 ^ k)%Z in
    let part := str_of_Z (10 ^ k + scaled mod 10 ^ k) in
    str_of_Z whole ++ "." ++
    match trim_zeros (drop 1 part) with
    | EmptyString => "0"
    | digits => digits
    end.

Definition float_text (inf nan : string) (f : float) : string :=
  match Prim2SF f with
  | S754_zero sign => if sign then "-0.0" else "0.0"
  | S754_infinity sign => if sign then "-" ++ inf else inf
  | S754_nan => nan
  | S754_finite sign m e =>
      (if sign then "-" else EmptyString) ++ float_digits m e
  end.

Fixpoint dumps (v : json) : string :=
  match v with
  | JNull => "null"
  | JBool true => "true"
  | JBool false => "false"
  | JNum n => str_of_Z n
  | JFloat f => float_text "Infinity" "NaN" f
  | JStr s => quoted s
  | JArr items => "[" ++ String.concat ", " (map dumps items) ++ "]"
  | JObj fields =>
      "{" ++ String.concat ", "
               (map (fun kv => quoted (fst kv) ++ ": " ++ dumps (snd kv)) fields)
      ++ "}"
  end.

(** ** [repr]

    A string is quoted with ['] unless it holds one and no double quote;
    bytes above ASCII are kept, as Python keeps a printable character. *)

Fixpoint has_char (c : ascii) (s : string) : bool :=
  match s with
  | EmptyString => false
  | String c' rest => orb (Ascii.eqb c c') (has_char c rest)
  end.

Definition repr_char (quote c : ascii) : string :=
  let n := N_of_ascii c in
  if orb (Ascii.eqb c quote) (Ascii.eqb c backslash)
  then String backslash (String c EmptyString)
  else if (n =? 10)%N then String backslash "n"
  else if (n =? 13)%N then String backslash "r"
  else if (n =? 9)%N then String backslash "t"
  else if orb (n <? 32)%N (n =? 127)%N
  then String backslash
         (String "x" (String (hex_digit (n / 16)) (String (hex_digit (n mod 16))
            EmptyString)))
  else String c EmptyString.

Definition repr_str (s : string) : string :=
  let quote :=
    if andb (has_char "'" s) (negb (has_char dquote s)) then dquote else "'"%char
  in
  String quote (String.concat EmptyString (map (repr_char quote) (list_ascii_of_string s)))
  ++ String quote EmptyString.

Fixpoint repr (v : json) : string :=
  match v with
  | JNull => "None"
  | JBool true => "True"
  | JBool false => "False"
  | JNum n => str_of_Z n
  | JFloat f => float_text "inf" "nan" f
  | JStr s => repr_str s
  | JArr items => "[" ++ String.concat ", " (map repr items) ++ "]"
  | JObj fields =>
      "{" ++ String.concat ", "
               (map (fun kv => repr_str (fst kv) ++ ": " ++ repr (snd kv)) fields)
      ++ "}"
  end.

(** ** A world

    The key is set; the service knows London and answers 404 for any other
    place. *)

Definition knows (location : json) : bool := is_str location "London".

Definition world (key : option string) : runtime :=
  {| json_loads := loads;
     json_dumps := dumps;
     py_repr := repr;
     api_key := key;
     fetch_weather := fun _ location =>
       if knows location then Report "Weather Report for London, GB"
       else HTTPError 404 "Not Found";
     fetch_forecast := fun _ location _ =>
       if knows location then Report "5-Day Weather Forecast for London, GB"
       else HTTPError 404 "Not Found";
     fetch_simple := fun _ location =>
       if knows location then Returned "Weather in London, GB:"
       else Raised (Exception "HTTP Error 404: Not Found");
     http_get := fun _ location _ =>
       if knows location
       then Returned (200%Z, Returned "Current Weather for London, GB:")
       else Returned (404%Z, Raised (KeyError "main")) |}.

Definition rt : runtime := world (Some "demo-key").

End Reference.

(** * Properties of the engines *)

(** ** Reading envelopes and requests *)

Definition envelope_id (envelope : json) : option json :=
  match envelope with
  | JObj fields => dict_lookup "id" fields
  | _ => None
  end.

(** The identifier [simple_weather_server.py] answers a request with. *)
Definition simple_id (d : dict) : json :=
  let request_id := dict_get d "id" (JNum 1) in
  match request_id with
  | JNull => JNum 1
  | _ => request_id
  end.

Definition method_of (d : dict) : json := dict_get d "method" JNull.


(** The names under which a list of tool descriptors registers tools. *)
Definition tool_names (tools : list json) : list json :=
  map (fun tool =>
         match tool with
         | JObj fields => dict_get fields "name" JNull
         | _ => JNull
         end) tools.

(** [name] is the name of one of [tools]. *)
Definition registered (tools : list json) (name : json) : bool :=
  existsb (fun n => match n with JStr s => is_str name s | _ => false end)
    (tool_names tools).


(** The [result] of a [tools/list] reply over a registry. *)
Definition tools_result (tools : list json) : json :=
  JObj [("tools", JArr tools)].

(** A server object whose fetchers raise, to run the path of a raised
    fault. *)
Definition failing_server : Minimal.MCPWeatherServer :=
  {| Minimal.server_info := Minimal.server_info (Minimal.new Reference.rt);
     Minimal.get_weather := fun _ => Raised (Exception "upstream unavailable");
     Minimal.get_weather_forecast :=
       fun _ _ => Raised (Exception "upstream unavailable") |}.

Definition london_call : dict :=
  [("jsonrpc", JStr "2.0"); ("id", JNum 3); ("method", JStr "tools/call");
   ("params", JObj [("name", JStr "get_weather");
                    ("arguments", JObj [("location", JStr "London")])])].

(** ** The shape of a reply

    Whatever the request object, [process_request] answers in one of a few
    ways, each of which carries the identifier read from the request. *)

Inductive reply_to (request_id : json) : outcome (option json) -> Prop :=
| reply_none : reply_to request_id (Returned None)
| reply_success (result : json) :
    reply_to request_id (Returned (Some (success_envelope request_id result)))
| reply_error (code : Z) (message : string) :
    reply_to request_id
      (Returned (Some (error_envelope request_id code message)))
| reply_raised (e : exn) : reply_to request_id (Raised e).

#[local] Hint Constructors reply_to : core.

(** Registrations made one after the other: each entry is a name, a
    description and a schema. *)
Definition add_tools (srv : Simple.SimpleMCPServer)
  (entries : list (string * string * json)) : Simple.SimpleMCPServer :=
  fold_left
    (fun self entry =>
       Simple.add_tool self (fst (fst entry)) (snd (fst entry)) (snd entry))
    entries srv.


(** * The days of a forecast

    The part of [get_weather_forecast] that sorts the entries of the
    service's [list] into days and picks what to show of each day: the loop
    that builds [daily_forecasts], the slice of its items and the choice of
    [midday_forecast].  [None] stands for an exception, which the fetcher's
    handler turns into an error text.  The temperatures of a day and the
    formatting of the report are not modelled. *)

Module Forecast.

(** [s] starts with a whitespace character. *)
Definition at_space (s : string) : bool :=
  existsb (fun w => prefix w s) whitespace.

(** The characters of [s] up to the first whitespace, and what follows. *)
Fixpoint word (s : string) : string * string :=
  match s with
  | EmptyString => (EmptyString, EmptyString)
  | String c rest =>
      if at_space s then (EmptyString, s)
      else let (w, after) := word rest in (String c w, after)
  end.

(** The words of [s]; [fuel] bounds their number. *)
Fixpoint words (fuel : nat) (s : string) : list string :=
  match fuel with
  | O => []
  | S fuel' =>
      match lstrip s with
      | EmptyString => []
      | String c rest =>
          let (w, after) := word (String c rest) in w :: words fuel' after
      end
  end.

(** [s.split()]. *)
Definition split (s : string) : list string := words (String.length s) s.

(** [s.split(":")[0]]. *)
Fixpoint before_colon (s : string) : string :=
  match s with
  | EmptyString => EmptyString
  | String c rest =>
      if Ascii.eqb c ":" then EmptyString else String c (before_colon rest)
  end.

(** [item["dt_txt"]], when it is there and a string. *)
Definition dt_txt (item : json) : option string :=
  match item with
  | JObj fields =>
      match dict_lookup "dt_txt" fields with
      | Some (JStr s) => Some s
      | _ => None
      end
  | _ => None
  end.

(** [item["dt_txt"].split()[0]]. *)
Definition date_of (item : json) : option string :=
  match dt_txt item with
  | Some s => nth_error (split s) 0
  | None => None
  end.

(** [daily_forecasts[date].append(item)], after making the day when it is
    not there: a new day goes last. *)
Fixpoint add_item (days : list (string * list json)) (date : string)
  (item : json) : list (string * list json) :=
  match days with
  | [] => [(date, [item])]
  | (date', items) :: rest =>
      if String.eqb date' date then (date', (items ++ [item])%list) :: rest
      else (date', items) :: add_item rest date item
  end.

(** The loop over the entries, from the days built so far. *)
Fixpoint group (days : list (string * list json)) (entries : list json)
  : option (list (string * list json)) :=
  match entries with
  | [] => Some days
  | item :: rest =>
      match date_of item with
      | Some date => group (add_item days date item) rest
      | None => None
      end
  end.

(** [daily_forecasts] after the loop over the entries of [list]. *)
Definition daily_forecasts (entries : list json)
  : option (list (string * list json)) :=
  group [] entries.

(** [l[:days]] for the [days] a request gives: an integer counts from the
    front, or from the back when negative; [true] and [false] are 1 and 0;
    [None] keeps everything; anything else is a [TypeError]. *)
Definition slice_to {A : Type} (days : json) (l : list A) : option (list A) :=
  match days with
  | JNum n =>
      Some (firstn
              (if (n <? 0)%Z
               then List.length l - Z.to_nat (- n)
               else Z.to_nat n) l)
  | JBool b => Some (firstn (if b then 1 else 0) l)
  | JNull => Some l
  | _ => None
  end.

(** [list(daily_forecasts.items())[:days]]. *)
Definition days_shown (days : json) (entries : list json)
  : option (list (string * list json)) :=
  match daily_forecasts entries with
  | Some all => slice_to days all
  | None => None
  end.

(** [min(rest, key=key)] continued from the best entry so far. *)
Fixpoint min_from {A : Type} (key : A -> option Z) (best : A) (least : Z)
  (rest : list A) : option A :=
  match rest with
  | [] => Some best
  | x :: rest' =>
      match key x with
      | Some k =>
          if (k <? least)%Z then min_from key x k rest'
          else min_from key best least rest'
      | None => None
      end
  end.

(** [min(l, key=key)]: [ValueError] on an empty list. *)
Definition py_min {A : Type} (key : A -> option Z) (l : list A) : option A :=
  match l with
  | [] => None
  | x :: rest =>
      match key x with
      | Some k => min_from key x k rest
      | None => None
      end
  end.

Section Midday.

(** [int] on a string. *)
Variable py_int : string -> option Z.

(** [int(x["dt_txt"].split()[1].split(":")[0])]. *)
Definition hour (item : json) : option Z :=
  match dt_txt item with
  | Some s =>
      match nth_error (split s) 1 with
      | Some time => py_int (before_colon time)
      | None => None
      end
  | None => None
  end.

(** The key of [midday_forecast]: the distance of the hour from 12. *)
Definition from_midday (item : json) : option Z :=
  match hour item with
  | Some h => Some (Z.abs (12 - h))
  | None => None
  end.

Definition midday_forecast (forecasts : list json) : option json :=
  py_min from_midday forecasts.

End Midday.

(** [int] on a run of ASCII digits, to run examples. *)
Definition decimal (s : string) : option Z :=
  match s with
  | EmptyString => None
  | _ =>
      match Reference.read_digits 0 s with
      | (n, EmptyString) => Some n
      | _ => None
      end
  end.

(** An entry of the service's [list] with a time stamp. *)
Definition entry (stamp : string) : json := JObj [("dt_txt", JStr stamp)].

End Forecast.

(** The entries of a day in a list of days; none when the day is absent. *)
Definition entries_of (date : string) (days : list (string * list json))
  : list json :=
  match find (fun day => String.eqb (fst day) date) days with
  | Some day => snd day
  | None => []
  end.

(** [item] is an entry of [date]. *)
Definition on_date (date : string) (item : json) : bool :=
  match Forecast.date_of item with
  | Some d => String.eqb d date
  | None => false
  end.

(** The members of [l] in the order of their first occurrence. *)
Fixpoint first_seen (seen l : list string) : list string :=
  match l with
  | [] => []
  | x :: rest =>
      if existsb (String.eqb x) seen then first_seen seen rest
      else x :: first_seen (x :: seen) rest
  end.

(** The dates of the entries that have one. *)
Fixpoint dates (entries : list json) : list string :=
  match entries with
  | [] => []
  | item :: rest =>
      match Forecast.date_of item with
      | Some d => d :: dates rest
      | None => dates rest
      end
  end.

(** The number of entries the days hold together. *)
Definition total (days : list (string * list json)) : nat :=
  List.length (concat (map snd days)).

(** ** Basic facts *)

Lemma is_str_true (v : json) (s : string) :
  is_str v s = true -> v = JStr s.
Proof.
  destruct v; cbn; try discriminate.
  intros H. apply String.eqb_eq in H. now subst.
Qed.

Lemma py_get_dict (d : dict) (k : string) (default : json) :
  py_get (JObj d) k default = Returned (dict_get d k default).
Proof. reflexivity. Qed.

Lemma dict_get_found (d : dict) (k : string) (default v : json) :
  dict_lookup k d = Some v -> dict_get d k default = v.
Proof. unfold dict_get. now intros ->. Qed.

Lemma dict_get_missing (d : dict) (k : string) (default : json) :
  dict_lookup k d = None -> dict_get d k default = default.
Proof. unfold dict_get. now intros ->. Qed.

Lemma simple_id_present (d : dict) (v : json) :
  dict_lookup "id" d = Some v -> v <> JNull -> simple_id d = v.
Proof.
  intros H Hv. unfold simple_id. rewrite (dict_get_found _ _ _ _ H).
  destruct v; congruence.
Qed.

Lemma simple_id_missing (d : dict) :
  dict_lookup "id" d = None -> simple_id d = JNum 1.
Proof.
  intros H. unfold simple_id. now rewrite (dict_get_missing _ _ _ H).
Qed.

Lemma request_id_of_dict (d : dict) :
  Simple.request_id_of (JObj d) = Returned (simple_id d).
Proof. reflexivity. Qed.

(** ** Every reply has that shape *)

Lemma minimal_tool_reply_shape (request_id : json) (label : string)
  (body : outcome string) :
  reply_to request_id
    (Returned (Some (Minimal.tool_reply request_id label body))).
Proof. destruct body; cbn; auto. Qed.

Lemma simple_tool_reply_shape (request_id : json) (body : outcome json) :
  (forall envelope, body = Returned envelope ->
     reply_to request_id (Returned (Some envelope))) ->
  reply_to request_id (Returned (Some (Simple.tool_reply request_id body))).
Proof. destruct body; cbn; auto. Qed.

Lemma minimal_reply (rt : runtime) (self : Minimal.MCPWeatherServer) (d : dict) :
  reply_to (dict_get d "id" JNull) (Minimal.process_request rt self (JObj d)).
Proof.
  unfold Minimal.process_request. rewrite !py_get_dict. cbn [bind].
  repeat match goal with
         | |- context [if ?b then _ else _] => destruct b
         | |- reply_to _ (bind ?m _) => destruct m; cbn [bind]
         end;
    auto using minimal_tool_reply_shape.
Qed.

Lemma simple_reply (rt : runtime) (self : Simple.SimpleMCPServer) (d : dict) :
  reply_to (simple_id d) (fst (Simple.handle_request rt self (JObj d))).
Proof.
  unfold Simple.handle_request. cbn [fst].
  rewrite request_id_of_dict, !py_get_dict. cbn [bind].
  repeat match goal with
         | |- context [if is_str ?v ?s then _ else _] =>
             destruct (is_str v s)
         | |- reply_to _ (bind ?m _) => destruct m; cbn [bind]
         end;
    auto.
  all: apply simple_tool_reply_shape; intros envelope.
  - destruct (py_get _ "location" _) as [location|]; cbn [bind];
      try discriminate.
    destruct (Simple.get_weather rt location); cbn [bind]; try discriminate.
    intros [= <-]. auto.
  - intros [= <-]. auto.
Qed.

(** ** Routing by method *)

Section Routing.

Variable rt : runtime.
Variable self : Minimal.MCPWeatherServer.
Variable srv : Simple.SimpleMCPServer.
Variable d : dict.

(** Rewrites the request's method into the dispatch of either engine. *)
Ltac route H :=
  apply is_str_true in H; unfold method_of in H;
  unfold Minimal.process_request, Simple.handle_request; cbn [fst];
  rewrite ?request_id_of_dict, !py_get_dict; cbn [bind]; rewrite H.






Lemma simple_tools_list :
  is_str (method_of d) "tools/list" = true ->
  Simple.handle_request rt srv (JObj d) =
  (Returned (Some (success_envelope (simple_id d)
     (JObj [("tools", JArr (Simple.tools srv))]))), srv).
Proof. intros H. route H. reflexivity. Qed.




Lemma simple_response_id (response : json) :
  fst (Simple.handle_request rt srv (JObj d)) = Returned (Some response) ->
  envelope_id response = Some (simple_id d).
Proof.
  intros H. pose proof (simple_reply rt srv d) as R. rewrite H in R.
  inversion R; reflexivity.
Qed.

(** [handle_message] on a line that decodes to an object: silence, or one
    serialized envelope with the identifier of the request. *)
Lemma minimal_handle_object (line : string) :
  json_loads rt (strip line) = inl (JObj d) ->
  Minimal.handle_message rt self line = Returned None \/
  exists envelope,
    Minimal.handle_message rt self line
    = Returned (Some (json_dumps rt envelope)) /\
    envelope_id envelope = Some (dict_get d "id" JNull).
Proof.
  intros H. unfold Minimal.handle_message. rewrite H.
  pose proof (minimal_reply rt self d) as R.
  destruct R as [| result | code message | e]; cbn.
  - now left.
  - right. eexists. split; reflexivity.
  - right. eexists. split; reflexivity.
  - right. eexists. split; reflexivity.
Qed.

End Routing.

(** ** Requests without an identifier *)




(** ** The identifier of a response *)

(** C2, as the code has it.  For a line that decodes to a request object,
    [minimal_weather_server.py] stays silent or answers with one envelope
    whose [id] is the request's, null when the request has none; an envelope
    [simple_weather_server.py]'s [handle_request] returns carries the
    request's [id] when that is present and not null, and 1 otherwise. *)
Theorem C2_response_id (rt : runtime) (self : Minimal.MCPWeatherServer)
  (srv : Simple.SimpleMCPServer) (line : string) (d : dict) :
  json_loads rt (strip line) = inl (JObj d) ->
  (Minimal.handle_message rt self line = Returned None \/
   exists envelope,
     Minimal.handle_message rt self line
     = Returned (Some (json_dumps rt envelope)) /\
     envelope_id envelope = Some (dict_get d "id" JNull)) /\
  (forall response,
     fst (Simple.handle_request rt srv (JObj d)) = Returned (Some response) ->
     envelope_id response = Some (simple_id d)) /\
  (forall v, dict_lookup "id" d = Some v -> v <> JNull -> simple_id d = v) /\
  (dict_lookup "id" d = None \/ dict_lookup "id" d = Some JNull ->
   simple_id d = JNum 1).
Proof.
  intros H. split; [| split; [| split]].
  - now apply minimal_handle_object.
  - apply simple_response_id.
  - apply simple_id_present.
  - intros [Hid | Hid].
    + now apply simple_id_missing.
    + unfold simple_id. now rewrite (dict_get_found _ _ _ _ Hid).
Qed.

Lemma C2_response_id_witness :
  (Minimal.handle_message Reference.rt (Minimal.new Reference.rt)
     (Reference.q "{'jsonrpc':'2.0','id':7,'method':'tools/list'}")
   = Returned None \/
   exists envelope,
     Minimal.handle_message Reference.rt (Minimal.new Reference.rt)
       (Reference.q "{'jsonrpc':'2.0','id':7,'method':'tools/list'}")
     = Returned (Some (json_dumps Reference.rt envelope)) /\
     envelope_id envelope = Some (JNum 7)) /\
  (forall response,
     fst (Simple.handle_request Reference.rt Simple.main_server
            (JObj [("jsonrpc", JStr "2.0"); ("id", JNum 7);
                   ("method", JStr "tools/list")]))
     = Returned (Some response) ->
     envelope_id response = Some (JNum 7)) /\
  (forall v, Some (JNum 7) = Some v -> v <> JNull -> JNum 7 = v) /\
  (Some (JNum 7) = None \/ Some (JNum 7) = Some JNull -> JNum 7 = JNum 1).
Proof.
  apply (C2_response_id Reference.rt (Minimal.new Reference.rt)
           Simple.main_server
           (Reference.q "{'jsonrpc':'2.0','id':7,'method':'tools/list'}")
           [("jsonrpc", JStr "2.0"); ("id", JNum 7);
            ("method", JStr "tools/list")]).
  vm_compute. reflexivity.
Defined.

(** C2 as stated fails on [simple_weather_server.py]: a request whose [id]
    is null, or absent, is answered with [id] 1. *)
Lemma C2_counterexample :
  json_loads Reference.rt
    (strip (Reference.q "{'jsonrpc':'2.0','id':null,'method':'tools/call'}"))
  = inl (JObj [("jsonrpc", JStr "2.0"); ("id", JNull);
               ("method", JStr "tools/call")]) /\
  Simple.main Reference.rt
    [Reference.q "{'jsonrpc':'2.0','id':null,'method':'tools/call'}";
     Reference.q "{'jsonrpc':'2.0','method':'nope'}"]
  = [Reference.q
       "{'jsonrpc': '2.0', 'id': 1, 'error': {'code': -32601, 'message': 'Unknown tool: None'}}";
     Reference.q
       "{'jsonrpc': '2.0', 'id': 1, 'error': {'code': -32601, 'message': 'Unknown method: nope'}}"].
Proof. split; vm_compute; reflexivity. Qed.

(** ** The handshake *)



(** ** Lines that do not decode *)

Lemma simple_turn_blank (rt : runtime) (srv : Simple.SimpleMCPServer)
  (line : string) :
  strip line = EmptyString -> Simple.turn rt srv line = ([], srv).
Proof. intros H. unfold Simple.turn. now rewrite H. Qed.





(** ** Messages that are JSON but no object *)

(** C3 fails on [minimal_weather_server.py].  When a line decodes to a JSON
    value that is not an object, [process_request] raises, the handler of
    [handle_message] raises again on [data.get], the exception leaves
    [handle_message], and [main] prints one server error and reads no further
    line. *)
Theorem C3_handle_message_raises (rt : runtime)
  (self : Minimal.MCPWeatherServer) (line : string) (v : json)
  (rest : list string) :
  json_loads rt (strip line) = inl v ->
  (forall d, v <> JObj d) ->
  line <> EmptyString ->
  Minimal.handle_message rt self line =
  Raised (AttributeError
            ("'" ++ type_name v ++ "' object has no attribute 'get'")) /\
  Minimal.serve rt self (line :: rest) =
  [json_dumps rt
     (error_envelope JNull (-32603)
        ("Server error: " ++
         "'" ++ type_name v ++ "' object has no attribute 'get'"))].
Proof.
  intros H Hv Hline.
  assert (Hm : Minimal.handle_message rt self line =
               Raised (AttributeError
                 ("'" ++ type_name v ++ "' object has no attribute 'get'"))).
  { unfold Minimal.handle_message. rewrite H.
    destruct v; try reflexivity. now destruct (Hv fields). }
  split; [exact Hm |].
  cbn [Minimal.serve]. apply String.eqb_neq in Hline.
  now rewrite Hline, Hm.
Qed.

Lemma C3_handle_message_raises_witness :
  Minimal.handle_message Reference.rt (Minimal.new Reference.rt) "5" =
  Raised (AttributeError
            ("'" ++ type_name (JNum 5) ++ "' object has no attribute 'get'")) /\
  Minimal.serve Reference.rt (Minimal.new Reference.rt)
    ["5"; Reference.q "{'jsonrpc':'2.0','id':1,'method':'tools/list'}"] =
  [json_dumps Reference.rt
     (error_envelope JNull (-32603)
        ("Server error: " ++
         "'" ++ type_name (JNum 5) ++ "' object has no attribute 'get'"))].
Proof.
  apply (C3_handle_message_raises Reference.rt (Minimal.new Reference.rt)
           "5" (JNum 5)).
  - vm_compute. reflexivity.
  - discriminate.
  - discriminate.
Defined.

(** What does hold: on a line that decodes to an object, or does not decode,
    [handle_message] returns. *)
Lemma minimal_handle_message_returns (rt : runtime)
  (self : Minimal.MCPWeatherServer) (line : string) :
  (forall v, json_loads rt (strip line) = inl v -> exists d, v = JObj d) ->
  exists response, Minimal.handle_message rt self line = Returned response.
Proof.
  intros Hobj. destruct (json_loads rt (strip line)) as [v | e] eqn:H.
  - destruct (Hobj v eq_refl) as [d ->].
    destruct (minimal_handle_object rt self d line H) as [-> | [env [-> _]]];
      eauto.
  - unfold Minimal.handle_message. rewrite H. eauto.
Qed.

(** The loop of [simple_weather_server.py] goes on after any line. *)
Lemma simple_serve_continues (rt : runtime) (srv : Simple.SimpleMCPServer)
  (line : string) (rest : list string) :
  line <> EmptyString ->
  fst (Simple.serve rt srv (line :: rest)) =
  (fst (Simple.turn rt srv line)
   ++ fst (Simple.serve rt (snd (Simple.turn rt srv line)) rest))%list.
Proof.
  intros Hline. cbn [Simple.serve]. apply String.eqb_neq in Hline.
  rewrite Hline. destruct (Simple.turn rt srv line) as [out srv'].
  cbn [fst snd]. now destruct (Simple.serve rt srv' rest).
Qed.

(** ** Blank lines *)

(** C8 fails on [minimal_weather_server.py]: its loop hands a line that is
    blank after trimming to [handle_message], which answers with the parse
    error envelope, and the loop prints it. *)
Theorem C8_blank_line_answered (rt : runtime)
  (self : Minimal.MCPWeatherServer) (line e : string) (rest : list string) :
  line <> EmptyString ->
  strip line = EmptyString ->
  json_loads rt EmptyString = inr e ->
  json_dumps rt Minimal.parse_error <> EmptyString ->
  Minimal.serve rt self (line :: rest) =
  json_dumps rt (error_envelope JNull (-32700) "Parse error")
  :: Minimal.serve rt self rest.
Proof.
  intros Hline Hblank Hloads Hdumps. cbn [Minimal.serve].
  apply String.eqb_neq in Hline. rewrite Hline.
  unfold Minimal.handle_message. rewrite Hblank, Hloads.
  cbn [Minimal.to_print]. apply String.eqb_neq in Hdumps.
  now rewrite Hdumps.
Qed.

Lemma C8_blank_line_answered_witness :
  Minimal.serve Reference.rt (Minimal.new Reference.rt)
    [String (ascii_of_nat 10) EmptyString] =
  json_dumps Reference.rt (error_envelope JNull (-32700) "Parse error")
  :: Minimal.serve Reference.rt (Minimal.new Reference.rt) [].
Proof.
  apply (C8_blank_line_answered Reference.rt (Minimal.new Reference.rt)
           (String (ascii_of_nat 10) EmptyString)
           "Expecting value: line 1 column 1 (char 0)").
  - discriminate.
  - vm_compute. reflexivity.
  - vm_compute. reflexivity.
  - vm_compute. discriminate.
Defined.

(** The loop of [simple_weather_server.py] does skip such a line: nothing
    is decoded, dispatched or printed. *)
Lemma simple_blank_line_skipped (rt : runtime) (srv : Simple.SimpleMCPServer)
  (line : string) (rest : list string) :
  line <> EmptyString ->
  strip line = EmptyString ->
  Simple.serve rt srv (line :: rest) = Simple.serve rt srv rest.
Proof.
  intros Hline Hblank. cbn [Simple.serve]. apply String.eqb_neq in Hline.
  rewrite Hline, (simple_turn_blank rt srv line Hblank).
  now destruct (Simple.serve rt srv rest).
Qed.

(** ** Tool calls *)

Section ToolCalls.

Variable rt : runtime.
Variable d p : dict.

Hypothesis call : is_str (method_of d) "tools/call" = true.
Hypothesis params : dict_get d "params" (JObj []) = JObj p.

Ltac enter :=
  pose proof (is_str_true _ _ call) as Hmethod; unfold method_of in Hmethod;
  unfold Minimal.process_request, Simple.handle_request; cbn [fst];
  rewrite ?request_id_of_dict, !py_get_dict; cbn [bind];
  rewrite Hmethod, params; cbn [is_str String.eqb Ascii.eqb Bool.eqb];
  rewrite !py_get_dict; cbn [bind].

Lemma minimal_call_weather (self : Minimal.MCPWeatherServer) :
  is_str (dict_get p "name" JNull) "get_weather" = true ->
  Minimal.process_request rt self (JObj d) =
  Returned (Some (Minimal.tool_reply (dict_get d "id" JNull)
    "Weather API error: "
    (location <- py_get (dict_get p "arguments" (JObj []))
                   "location" (JStr EmptyString) ;;
     Minimal.get_weather self location))).
Proof. intros Hname. enter. now rewrite Hname. Qed.

Lemma minimal_call_forecast (self : Minimal.MCPWeatherServer) :
  is_str (dict_get p "name" JNull) "get_weather_forecast" = true ->
  Minimal.process_request rt self (JObj d) =
  Returned (Some (Minimal.tool_reply (dict_get d "id" JNull)
    "Forecast API error: "
    (location <- py_get (dict_get p "arguments" (JObj []))
                   "location" (JStr EmptyString) ;;
     days <- py_get (dict_get p "arguments" (JObj [])) "days" (JNum 5) ;;
     Minimal.get_weather_forecast self location days))).
Proof.
  intros Hname. enter.
  apply is_str_true in Hname. now rewrite Hname.
Qed.

Lemma minimal_call_unknown (self : Minimal.MCPWeatherServer) :
  registered Minimal.tools (dict_get p "name" JNull) = false ->
  Minimal.process_request rt self (JObj d) =
  Returned (Some (error_envelope (dict_get d "id" JNull) (-32601)
    ("Unknown tool: " ++ py_str rt (dict_get p "name" JNull)))).
Proof.
  intros Hname. enter.
  unfold registered in Hname. cbn [tool_names Minimal.tools map existsb] in Hname.
  cbn [dict_get dict_lookup String.eqb Ascii.eqb Bool.eqb] in Hname.
  apply orb_false_iff in Hname as [H1 Hname].
  apply orb_false_iff in Hname as [H2 _].
  now rewrite H1, H2.
Qed.

Lemma simple_call_weather (srv : Simple.SimpleMCPServer) :
  is_str (dict_get p "name" JNull) "get_weather" = true ->
  fst (Simple.handle_request rt srv (JObj d)) =
  Returned (Some (Simple.tool_reply (simple_id d)
    (location <- py_get (dict_get p "arguments" (JObj []))
                   "location" (JStr EmptyString) ;;
     result <- Simple.get_weather rt location ;;
     Returned (success_envelope (simple_id d) (text_content result))))).
Proof. intros Hname. enter. now rewrite Hname. Qed.


End ToolCalls.

(** ** Unknown methods and tools *)






(** ** The fetchers

    Every way out of a fetcher is a returned string: a failure comes back as
    text, not as an exception. *)

Section Fetchers.

Variable rt : runtime.

Lemma minimal_get_weather_returns (location : json) :
  exists text, Minimal.get_weather_impl rt location = Returned text.
Proof.
  unfold Minimal.get_weather_impl.
  destruct (no_key _); [eauto |]. destruct (negb _); eauto.
Qed.

Lemma minimal_get_weather_forecast_returns (location days : json) :
  exists text,
    Minimal.get_weather_forecast_impl rt location days = Returned text.
Proof.
  unfold Minimal.get_weather_forecast_impl.
  destruct (no_key _); [eauto |]. destruct (negb _); eauto.
Qed.

Lemma simple_get_weather_returns (location : json) :
  exists text, Simple.get_weather rt location = Returned text.
Proof.
  unfold Simple.get_weather.
  destruct (no_key _); [eauto |]. destruct (negb _); [eauto |].
  destruct (fetch_simple _ _ _); eauto.
Qed.

(** The four failures the fetcher of [minimal_weather_server.py] names. *)
Lemma minimal_get_weather_no_key (location : json) :
  no_key (api_key rt) = true ->
  Minimal.get_weather_impl rt location =
  Returned "❌ Error: OPENWEATHER_API_KEY environment variable not set".
Proof. intros H. unfold Minimal.get_weather_impl. now rewrite H. Qed.

Lemma minimal_get_weather_no_location (location : json) :
  no_key (api_key rt) = false ->
  truthy location = false ->
  Minimal.get_weather_impl rt location =
  Returned "❌ Error: No location provided".
Proof. intros H Hl. unfold Minimal.get_weather_impl. now rewrite H, Hl. Qed.

Lemma minimal_get_weather_not_found (location : json) (reason : string) :
  no_key (api_key rt) = false ->
  truthy location = true ->
  fetch_weather rt (key_text (api_key rt)) location = HTTPError 404 reason ->
  Minimal.get_weather_impl rt location =
  Returned ("❌ Error: Location '" ++ py_str rt location ++ "' not found").
Proof.
  intros H Hl Hf. unfold Minimal.get_weather_impl. now rewrite H, Hl, Hf.
Qed.

Lemma minimal_get_weather_http_error (location : json) (code : Z)
  (reason : string) :
  no_key (api_key rt) = false ->
  truthy location = true ->
  code <> 404%Z ->
  fetch_weather rt (key_text (api_key rt)) location = HTTPError code reason ->
  Minimal.get_weather_impl rt location =
  Returned ("❌ Error: HTTP " ++ str_of_Z code ++ " - " ++ reason).
Proof.
  intros H Hl Hc Hf. unfold Minimal.get_weather_impl.
  rewrite H, Hl, Hf. cbn. apply Z.eqb_neq in Hc. now rewrite Hc.
Qed.

(** [call_tool] of [weather_server.py] answers every call, failed or not,
    with one text item. *)
Lemma sdk_call_tool_text (name : string) (arguments : dict) :
  exists text,
    Sdk.call_tool rt name arguments
    = [{| Sdk.type := "text"; Sdk.text := text |}].
Proof.
  unfold Sdk.call_tool. destruct (no_key _); [eauto |].
  destruct (String.eqb name "get_current_weather").
  - destruct (Sdk.subscript _ _); cbn [bind]; [| eauto].
    destruct (Sdk.get_current_weather _ _ _); cbn [bind]; eauto.
  - destruct (String.eqb name "get_weather_forecast"); [| eauto].
    destruct (Sdk.subscript _ _); cbn [bind]; [| eauto].
    destruct (Sdk.get_weather_forecast _ _ _); cbn [bind]; eauto.
Qed.

Lemma sdk_call_tool_missing_location (name : string) (arguments : dict) :
  no_key (api_key rt) = false ->
  name = "get_current_weather" \/ name = "get_weather_forecast" ->
  dict_lookup "location" arguments = None ->
  Sdk.call_tool rt name arguments
  = [{| Sdk.type := "text";
        Sdk.text := "Error calling tool '" ++ name ++ "': 'location'" |}].
Proof.
  intros Hkey Hname Hloc. unfold Sdk.call_tool, Sdk.subscript.
  rewrite Hkey, Hloc. destruct Hname as [-> | ->]; reflexivity.
Qed.

End Fetchers.

(** ** Failures of the collaborator *)

(** C5, as the code has it.  In a [tools/call] on [get_weather] or
    [get_weather_forecast] with an [arguments] object, a fault the
    collaborator raises becomes an error envelope with code -32603 and the
    fault's text in [message]; a string the collaborator returns, an error
    sentinel included, becomes a success envelope whose one content item
    carries it.  The fetchers of the servers report every failure by such a
    string, so with them the reply is a success envelope. *)
Theorem C5_collaborator_failure (rt : runtime)
  (self : Minimal.MCPWeatherServer) (srv : Simple.SimpleMCPServer)
  (d p a : dict) :
  is_str (method_of d) "tools/call" = true ->
  dict_get d "params" (JObj []) = JObj p ->
  dict_get p "arguments" (JObj []) = JObj a ->
  (is_str (dict_get p "name" JNull) "get_weather" = true ->
   (forall e,
      Minimal.get_weather self (dict_get a "location" (JStr EmptyString))
      = Raised e ->
      Minimal.process_request rt self (JObj d) =
      Returned (Some (error_envelope (dict_get d "id" JNull) (-32603)
        ("Weather API error: " ++ exn_str e)))) /\
   (forall text,
      Minimal.get_weather self (dict_get a "location" (JStr EmptyString))
      = Returned text ->
      Minimal.process_request rt self (JObj d) =
      Returned (Some (success_envelope (dict_get d "id" JNull)
        (text_content text)))) /\
   (exists text,
      Minimal.process_request rt (Minimal.new rt) (JObj d) =
      Returned (Some (success_envelope (dict_get d "id" JNull)
        (text_content text)))) /\
   (exists text,
      fst (Simple.handle_request rt srv (JObj d)) =
      Returned (Some (success_envelope (simple_id d) (text_content text)))))
  /\
  (is_str (dict_get p "name" JNull) "get_weather_forecast" = true ->
   (forall e,
      Minimal.get_weather_forecast self
        (dict_get a "location" (JStr EmptyString)) (dict_get a "days" (JNum 5))
      = Raised e ->
      Minimal.process_request rt self (JObj d) =
      Returned (Some (error_envelope (dict_get d "id" JNull) (-32603)
        ("Forecast API error: " ++ exn_str e)))) /\
   (forall text,
      Minimal.get_weather_forecast self
        (dict_get a "location" (JStr EmptyString)) (dict_get a "days" (JNum 5))
      = Returned text ->
      Minimal.process_request rt self (JObj d) =
      Returned (Some (success_envelope (dict_get d "id" JNull)
        (text_content text)))) /\
   (exists text,
      Minimal.process_request rt (Minimal.new rt) (JObj d) =
      Returned (Some (success_envelope (dict_get d "id" JNull)
        (text_content text))))).
Proof.
  intros Hcall Hparams Hargs. split; intros Hname.
  - repeat split.
    + intros e He.
      rewrite (minimal_call_weather rt d p Hcall Hparams self Hname).
      rewrite Hargs, py_get_dict. cbn [bind]. now rewrite He.
    + intros text Ht.
      rewrite (minimal_call_weather rt d p Hcall Hparams self Hname).
      rewrite Hargs, py_get_dict. cbn [bind]. now rewrite Ht.
    + destruct (minimal_get_weather_returns rt
                  (dict_get a "location" (JStr EmptyString))) as [text Ht].
      exists text.
      rewrite (minimal_call_weather rt d p Hcall Hparams _ Hname).
      rewrite Hargs, py_get_dict. cbn [bind Minimal.get_weather Minimal.new].
      now rewrite Ht.
    + destruct (simple_get_weather_returns rt
                  (dict_get a "location" (JStr EmptyString))) as [text Ht].
      exists text.
      rewrite (simple_call_weather rt d p Hcall Hparams srv Hname).
      rewrite Hargs, py_get_dict. cbn [bind]. now rewrite Ht.
  - repeat split.
    + intros e He.
      rewrite (minimal_call_forecast rt d p Hcall Hparams self Hname).
      rewrite Hargs, !py_get_dict. cbn [bind]. now rewrite He.
    + intros text Ht.
      rewrite (minimal_call_forecast rt d p Hcall Hparams self Hname).
      rewrite Hargs, !py_get_dict. cbn [bind]. now rewrite Ht.
    + destruct (minimal_get_weather_forecast_returns rt
                  (dict_get a "location" (JStr EmptyString))
                  (dict_get a "days" (JNum 5))) as [text Ht].
      exists text.
      rewrite (minimal_call_forecast rt d p Hcall Hparams _ Hname).
      rewrite Hargs, !py_get_dict.
      cbn [bind Minimal.get_weather_forecast Minimal.new].
      now rewrite Ht.
Qed.

Lemma C5_collaborator_failure_witness :
  Minimal.process_request Reference.rt failing_server (JObj london_call) =
  Returned (Some (error_envelope (JNum 3) (-32603)
                    "Weather API error: upstream unavailable")) /\
  Minimal.process_request Reference.rt (Minimal.new Reference.rt)
    (JObj london_call) =
  Returned (Some (success_envelope (JNum 3)
                    (text_content "Weather Report for London, GB"))).
Proof.
  destruct (C5_collaborator_failure Reference.rt failing_server
              Simple.main_server london_call
              [("name", JStr "get_weather");
               ("arguments", JObj [("location", JStr "London")])]
              [("location", JStr "London")] eq_refl eq_refl eq_refl)
    as [Hraise _].
  destruct (C5_collaborator_failure Reference.rt (Minimal.new Reference.rt)
              Simple.main_server london_call
              [("name", JStr "get_weather");
               ("arguments", JObj [("location", JStr "London")])]
              [("location", JStr "London")] eq_refl eq_refl eq_refl)
    as [Hreturn _].
  split.
  - apply (proj1 (Hraise eq_refl) (Exception "upstream unavailable")).
    reflexivity.
  - apply (proj1 (proj2 (Hreturn eq_refl)) "Weather Report for London, GB").
    reflexivity.
Defined.

(** C5 as stated fails: with no API key in the environment, or for a place
    the service does not know, [get_weather] returns its error sentinel and
    the engine wraps it in a success envelope. *)
Lemma C5_counterexample :
  Minimal.handle_message (Reference.world None)
    (Minimal.new (Reference.world None))
    (Reference.q
       "{'jsonrpc':'2.0','id':3,'method':'tools/call','params':{'name':'get_weather','arguments':{'location':'London'}}}")
  = Returned (Some (Reference.q
      "{'jsonrpc': '2.0', 'id': 3, 'result': {'content': [{'type': 'text', 'text': '\u274c Error: OPENWEATHER_API_KEY environment variable not set'}]}}"))
  /\
  Minimal.process_request Reference.rt (Minimal.new Reference.rt)
    (JObj [("jsonrpc", JStr "2.0"); ("id", JNum 3);
           ("method", JStr "tools/call");
           ("params", JObj [("name", JStr "get_weather");
                            ("arguments", JObj [("location", JStr "Atlantis")])])])
  = Returned (Some (success_envelope (JNum 3)
      (text_content "❌ Error: Location 'Atlantis' not found")))
  /\
  fst (Simple.handle_request (Reference.world None) Simple.main_server
         (JObj london_call))
  = Returned (Some (success_envelope (JNum 3)
      (text_content "Error: OPENWEATHER_API_KEY not set"))).
Proof. repeat split; vm_compute; reflexivity. Qed.

(** The one fault the servers' own code raises inside the [try] of a tool
    call: [arguments] that is no object. *)
Lemma minimal_call_bad_arguments (rt : runtime)
  (self : Minimal.MCPWeatherServer) (d p : dict) (arguments : json) :
  is_str (method_of d) "tools/call" = true ->
  dict_get d "params" (JObj []) = JObj p ->
  is_str (dict_get p "name" JNull) "get_weather" = true ->
  dict_get p "arguments" (JObj []) = arguments ->
  (forall a, arguments <> JObj a) ->
  Minimal.process_request rt self (JObj d) =
  Returned (Some (error_envelope (dict_get d "id" JNull) (-32603)
    ("Weather API error: '" ++ type_name arguments
     ++ "' object has no attribute 'get'"))).
Proof.
  intros Hcall Hparams Hname Hargs Hobj.
  rewrite (minimal_call_weather rt d p Hcall Hparams self Hname), Hargs.
  destruct arguments; try reflexivity. now destruct (Hobj fields).
Qed.

(** ** A missing location *)

(** C10.  In a [tools/call] on a known tool whose [arguments] are absent, or
    an object without [location], the collaborator is called with the empty
    string (and, for a forecast, the [days] given or 5), and the servers
    answer with a success envelope carrying the fetcher's text: the
    missing-key sentinel or the missing-location sentinel, never a protocol
    error for the missing argument. *)
Theorem C10_missing_location (rt : runtime) (srv : Simple.SimpleMCPServer)
  (d p a : dict) :
  is_str (method_of d) "tools/call" = true ->
  dict_get d "params" (JObj []) = JObj p ->
  dict_get p "arguments" (JObj []) = JObj a ->
  dict_lookup "location" a = None ->
  (is_str (dict_get p "name" JNull) "get_weather" = true ->
   (forall self,
      Minimal.process_request rt self (JObj d) =
      Returned (Some (Minimal.tool_reply (dict_get d "id" JNull)
        "Weather API error: "
        (Minimal.get_weather self (JStr EmptyString))))) /\
   Minimal.process_request rt (Minimal.new rt) (JObj d) =
   Returned (Some (success_envelope (dict_get d "id" JNull)
     (text_content
        (if no_key (api_key rt)
         then "❌ Error: OPENWEATHER_API_KEY environment variable not set"
         else "❌ Error: No location provided")))) /\
   fst (Simple.handle_request rt srv (JObj d)) =
   Returned (Some (success_envelope (simple_id d)
     (text_content
        (if no_key (api_key rt)
         then "Error: OPENWEATHER_API_KEY not set"
         else "Error: Location not provided")))))
  /\
  (is_str (dict_get p "name" JNull) "get_weather_forecast" = true ->
   (forall self,
      Minimal.process_request rt self (JObj d) =
      Returned (Some (Minimal.tool_reply (dict_get d "id" JNull)
        "Forecast API error: "
        (Minimal.get_weather_forecast self (JStr EmptyString)
           (dict_get a "days" (JNum 5)))))) /\
   Minimal.process_request rt (Minimal.new rt) (JObj d) =
   Returned (Some (success_envelope (dict_get d "id" JNull)
     (text_content
        (if no_key (api_key rt)
         then "❌ Error: OPENWEATHER_API_KEY environment variable not set"
         else "❌ Error: No location provided"))))).
Proof.
  intros Hcall Hparams Hargs Hloc.
  pose proof (dict_get_missing a "location" (JStr EmptyString) Hloc) as Hdef.
  split; intros Hname.
  - assert (Hm : forall self,
               Minimal.process_request rt self (JObj d) =
               Returned (Some (Minimal.tool_reply (dict_get d "id" JNull)
                 "Weather API error: "
                 (Minimal.get_weather self (JStr EmptyString))))).
    { intros self.
      rewrite (minimal_call_weather rt d p Hcall Hparams self Hname).
      rewrite Hargs, py_get_dict, Hdef. reflexivity. }
    split; [exact Hm | split].
    + rewrite Hm. cbn [Minimal.get_weather Minimal.new].
      unfold Minimal.get_weather_impl. now destruct (no_key _).
    + rewrite (simple_call_weather rt d p Hcall Hparams srv Hname).
      rewrite Hargs, py_get_dict, Hdef. cbn [bind].
      unfold Simple.get_weather. now destruct (no_key _).
  - assert (Hm : forall self,
               Minimal.process_request rt self (JObj d) =
               Returned (Some (Minimal.tool_reply (dict_get d "id" JNull)
                 "Forecast API error: "
                 (Minimal.get_weather_forecast self (JStr EmptyString)
                    (dict_get a "days" (JNum 5)))))).
    { intros self.
      rewrite (minimal_call_forecast rt d p Hcall Hparams self Hname).
      rewrite Hargs, !py_get_dict, Hdef. reflexivity. }
    split; [exact Hm |].
    rewrite Hm. cbn [Minimal.get_weather_forecast Minimal.new].
    unfold Minimal.get_weather_forecast_impl. now destruct (no_key _).
Qed.

Lemma C10_missing_location_witness :
  Minimal.process_request Reference.rt (Minimal.new Reference.rt)
    (JObj [("jsonrpc", JStr "2.0"); ("id", JNum 9);
           ("method", JStr "tools/call");
           ("params", JObj [("name", JStr "get_weather")])]) =
  Returned (Some (success_envelope (JNum 9)
    (text_content "❌ Error: No location provided"))) /\
  fst (Simple.handle_request Reference.rt Simple.main_server
    (JObj [("jsonrpc", JStr "2.0"); ("id", JNum 9);
           ("method", JStr "tools/call");
           ("params", JObj [("name", JStr "get_weather")])])) =
  Returned (Some (success_envelope (JNum 9)
    (text_content "Error: Location not provided"))).
Proof.
  destruct (C10_missing_location Reference.rt Simple.main_server
              [("jsonrpc", JStr "2.0"); ("id", JNum 9);
               ("method", JStr "tools/call");
               ("params", JObj [("name", JStr "get_weather")])]
              [("name", JStr "get_weather")] []
              eq_refl eq_refl eq_refl eq_refl) as [H _].
  destruct (H eq_refl) as (_ & Hminimal & Hsimple).
  split; [exact Hminimal | exact Hsimple].
Defined.

(** ** Tool listing *)

(** [add_tool] registers at the end. *)
Lemma add_tool_names (srv : Simple.SimpleMCPServer) (name description : string)
  (schema : json) :
  tool_names (Simple.tools (Simple.add_tool srv name description schema))
  = (tool_names (Simple.tools srv) ++ [JStr name])%list.
Proof.
  unfold tool_names, Simple.add_tool. cbn [Simple.tools].
  rewrite map_app. reflexivity.
Qed.

(** No request changes the server object. *)
Lemma simple_handle_request_state (rt : runtime) (srv : Simple.SimpleMCPServer)
  (request : json) :
  snd (Simple.handle_request rt srv request) = srv.
Proof. reflexivity. Qed.

Lemma simple_turn_state (rt : runtime) (srv : Simple.SimpleMCPServer)
  (line : string) :
  snd (Simple.turn rt srv line) = srv.
Proof.
  unfold Simple.turn. destruct (String.eqb _ _); [reflexivity |].
  destruct (json_loads _ _) as [request | e]; [| reflexivity].
  pose proof (simple_handle_request_state rt srv request) as H.
  destruct (Simple.handle_request rt srv request) as [[[response |] | e] srv'];
    cbn [snd] in *; assumption.
Qed.

Lemma simple_serve_state (rt : runtime) (stdin : list string) :
  forall srv, snd (Simple.serve rt srv stdin) = srv.
Proof.
  induction stdin as [| line rest IH]; intros srv; [reflexivity |].
  cbn [Simple.serve]. destruct (String.eqb _ _); [reflexivity |].
  pose proof (simple_turn_state rt srv line) as Hturn.
  destruct (Simple.turn rt srv line) as [out srv']. cbn [snd] in Hturn.
  subst srv'. specialize (IH srv).
  destruct (Simple.serve rt srv rest) as [outs srv'']. exact IH.
Qed.



(** * Further properties of the engines *)

(** ** When the engines raise *)

Lemma py_get_raised (v : json) (k : string) (default : json) (e : exn) :
  py_get v k default = Raised e <->
  (forall p, v <> JObj p) /\
  e = AttributeError ("'" ++ type_name v ++ "' object has no attribute 'get'").
Proof.
  destruct v; cbn; split;
    try (intros [= <-]; split; [discriminate | reflexivity]);
    try (intros [_ ->]; reflexivity).
  - discriminate.
  - intros [H _]. now destruct (H fields).
Qed.

(** Settles the four tests on the method of a request. *)
Ltac by_method m :=
  destruct m as [| ? | ? | ? | name | ? | ?]; cbn [is_str];
  [ | | | |
    destruct (String.eqb_spec name "initialize");
    [ subst name
    | destruct (String.eqb_spec name "notifications/initialized");
      [ subst name
      | destruct (String.eqb_spec name "tools/list");
        [ subst name
        | destruct (String.eqb_spec name "tools/call"); [ subst name | ] ] ] ]
  | | ].

(** X1.  On a request object [process_request] of
    [minimal_weather_server.py] raises in one case only: the method is
    [tools/call] and [params] is not an object; the exception is the
    [AttributeError] of [params.get].  A fault of a fetcher never leaves
    it. *)
Theorem minimal_process_request_raises (rt : runtime)
  (self : Minimal.MCPWeatherServer) (d : dict) (e : exn) :
  Minimal.process_request rt self (JObj d) = Raised e <->
  is_str (method_of d) "tools/call" = true /\
  (forall p, dict_get d "params" (JObj []) <> JObj p) /\
  e = AttributeError
        ("'" ++ type_name (dict_get d "params" (JObj []))
         ++ "' object has no attribute 'get'").
Proof.
  unfold Minimal.process_request, method_of. rewrite !py_get_dict. cbn [bind].
  by_method (dict_get d "method" JNull); cbv iota;
    try (split; [discriminate | intros [H _]; discriminate H]).
  destruct (dict_get d "params" (JObj [])) as [| | | | | | p]; cbn [py_get bind];
    try (split;
         [ intros [= <-]; repeat split; discriminate
         | intros (_ & _ & ->); reflexivity ]).
  split.
  - repeat match goal with
           | |- context [if ?b then _ else _] => destruct b
           end; discriminate.
  - intros (_ & H & _). now destruct (H p).
Qed.

(** The same for [handle_request] of [simple_weather_server.py]. *)
Lemma simple_handle_request_raises (rt : runtime)
  (srv : Simple.SimpleMCPServer) (d : dict) (e : exn) :
  fst (Simple.handle_request rt srv (JObj d)) = Raised e <->
  is_str (method_of d) "tools/call" = true /\
  (forall p, dict_get d "params" (JObj []) <> JObj p) /\
  e = AttributeError
        ("'" ++ type_name (dict_get d "params" (JObj []))
         ++ "' object has no attribute 'get'").
Proof.
  unfold Simple.handle_request, method_of. cbn [fst].
  rewrite request_id_of_dict, !py_get_dict. cbn [bind].
  by_method (dict_get d "method" JNull); cbv iota;
    try (split; [discriminate | intros [H _]; discriminate H]).
  destruct (dict_get d "params" (JObj [])) as [| | | | | | p]; cbn [py_get bind];
    try (split;
         [ intros [= <-]; repeat split; discriminate
         | intros (_ & _ & ->); reflexivity ]).
  split; [discriminate |].
  intros (_ & H & _). now destruct (H p).
Qed.



(** X3.  A [tools/call] whose [params] is not an object is answered by
    [handle_message] with code -32603, the message [Internal error: ]
    followed by the text of the [AttributeError], and the [id] of the
    request. *)
Theorem minimal_bad_params (rt : runtime) (self : Minimal.MCPWeatherServer)
  (line : string) (d : dict) :
  json_loads rt (strip line) = inl (JObj d) ->
  is_str (method_of d) "tools/call" = true ->
  (forall p, dict_get d "params" (JObj []) <> JObj p) ->
  Minimal.handle_message rt self line =
  Returned (Some (json_dumps rt
    (error_envelope (dict_get d "id" JNull) (-32603)
       ("Internal error: " ++
        "'" ++ type_name (dict_get d "params" (JObj []))
        ++ "' object has no attribute 'get'")))).
Proof.
  intros H Hcall Hparams. unfold Minimal.handle_message. rewrite H.
  assert (Hr : Minimal.process_request rt self (JObj d) =
               Raised (AttributeError
                 ("'" ++ type_name (dict_get d "params" (JObj []))
                  ++ "' object has no attribute 'get'"))).
  { apply minimal_process_request_raises. auto. }
  rewrite Hr. reflexivity.
Qed.

Lemma minimal_bad_params_witness :
  Minimal.handle_message Reference.rt (Minimal.new Reference.rt)
    (Reference.q "{'jsonrpc':'2.0','id':7,'method':'tools/call','params':null}")
  = Returned (Some (json_dumps Reference.rt
      (error_envelope (JNum 7) (-32603)
         "Internal error: 'NoneType' object has no attribute 'get'"))).
Proof.
  apply (minimal_bad_params Reference.rt (Minimal.new Reference.rt)
           (Reference.q
              "{'jsonrpc':'2.0','id':7,'method':'tools/call','params':null}")
           [("jsonrpc", JStr "2.0"); ("id", JNum 7);
            ("method", JStr "tools/call"); ("params", JNull)]).
  - vm_compute. reflexivity.
  - reflexivity.
  - discriminate.
Defined.

(** ** What the loop of [simple_weather_server.py] prints for a bad message *)

(** X6.  For a line that decodes to a JSON value that is not an object the
    loop prints one envelope with code -32603, [id] null and the text of the
    [AttributeError], and keeps its server object. *)
Theorem simple_not_object (rt : runtime) (srv : Simple.SimpleMCPServer)
  (line : string) (v : json) :
  strip line <> EmptyString ->
  json_loads rt (strip line) = inl v ->
  (forall d, v <> JObj d) ->
  Simple.turn rt srv line =
  ([json_dumps rt
      (error_envelope JNull (-32603)
         ("Internal error: " ++
          "'" ++ type_name v ++ "' object has no attribute 'get'"))],
   srv).
Proof.
  intros Hblank H Hv. unfold Simple.turn.
  apply String.eqb_neq in Hblank. rewrite Hblank, H.
  destruct v; try reflexivity. now destruct (Hv fields).
Qed.

Lemma simple_not_object_witness :
  Simple.turn Reference.rt Simple.main_server "[1, 2]" =
  ([json_dumps Reference.rt
      (error_envelope JNull (-32603)
         "Internal error: 'list' object has no attribute 'get'")],
   Simple.main_server).
Proof.
  apply (simple_not_object Reference.rt Simple.main_server "[1, 2]"
           (JArr [JNum 1; JNum 2])).
  - vm_compute. discriminate.
  - vm_compute. reflexivity.
  - discriminate.
Defined.

(** X7.  For a [tools/call] whose [params] is not an object the loop prints
    an envelope with code -32603 whose [id] is null, whatever [id] the
    request has. *)
Theorem simple_bad_params (rt : runtime) (srv : Simple.SimpleMCPServer)
  (line : string) (d : dict) :
  strip line <> EmptyString ->
  json_loads rt (strip line) = inl (JObj d) ->
  is_str (method_of d) "tools/call" = true ->
  (forall p, dict_get d "params" (JObj []) <> JObj p) ->
  Simple.turn rt srv line =
  ([json_dumps rt
      (error_envelope JNull (-32603)
         ("Internal error: " ++
          "'" ++ type_name (dict_get d "params" (JObj []))
          ++ "' object has no attribute 'get'"))],
   srv).
Proof.
  intros Hblank H Hcall Hparams. unfold Simple.turn.
  apply String.eqb_neq in Hblank. rewrite Hblank, H.
  assert (Hr : fst (Simple.handle_request rt srv (JObj d)) =
               Raised (AttributeError
                 ("'" ++ type_name (dict_get d "params" (JObj []))
                  ++ "' object has no attribute 'get'"))).
  { apply simple_handle_request_raises. auto. }
  pose proof (simple_handle_request_state rt srv (JObj d)) as Hs.
  destruct (Simple.handle_request rt srv (JObj d)) as [reply srv'].
  cbn [fst snd] in Hr, Hs. subst reply srv'. reflexivity.
Qed.

Lemma simple_bad_params_witness :
  Simple.turn Reference.rt Simple.main_server
    (Reference.q "{'jsonrpc':'2.0','id':7,'method':'tools/call','params':[]}")
  = ([json_dumps Reference.rt
        (error_envelope JNull (-32603)
           "Internal error: 'list' object has no attribute 'get'")],
     Simple.main_server).
Proof.
  apply (simple_bad_params Reference.rt Simple.main_server
           (Reference.q
              "{'jsonrpc':'2.0','id':7,'method':'tools/call','params':[]}")
           [("jsonrpc", JStr "2.0"); ("id", JNum 7);
            ("method", JStr "tools/call"); ("params", JArr [])]).
  - vm_compute. discriminate.
  - vm_compute. reflexivity.
  - reflexivity.
  - discriminate.
Defined.

(** ** The envelopes the engines return *)

(** The three kinds of envelope a handler returns for an identifier. *)
Ltac kinds :=
  first
    [ left; eexists; reflexivity
    | right; left; eexists; reflexivity
    | right; right; eexists; reflexivity ].

(** X4.  Every envelope [process_request] or [handle_request] returns for a
    request object is a success envelope or an error envelope with code
    -32601 or -32603, tagged [jsonrpc] 2.0 and carrying the identifier the
    engine read: no other code leaves a handler. *)
Theorem reply_kinds (rt : runtime) (self : Minimal.MCPWeatherServer)
  (srv : Simple.SimpleMCPServer) (d : dict) (response : json) :
  (Minimal.process_request rt self (JObj d) = Returned (Some response) ->
   (exists result,
      response = success_envelope (dict_get d "id" JNull) result) \/
   (exists message,
      response = error_envelope (dict_get d "id" JNull) (-32601) message) \/
   (exists message,
      response = error_envelope (dict_get d "id" JNull) (-32603) message)) /\
  (fst (Simple.handle_request rt srv (JObj d)) = Returned (Some response) ->
   (exists result, response = success_envelope (simple_id d) result) \/
   (exists message,
      response = error_envelope (simple_id d) (-32601) message) \/
   (exists message,
      response = error_envelope (simple_id d) (-32603) message)).
Proof.
  split.
  - unfold Minimal.process_request. rewrite !py_get_dict. cbn [bind].
    by_method (dict_get d "method" JNull); cbv iota;
      try (intros [= <-]; kinds); try discriminate.
    destruct (py_get _ "name" _) as [tool_name |]; cbn [bind];
      [| discriminate].
    destruct (py_get _ "arguments" _) as [arguments |]; cbn [bind];
      [| discriminate].
    destruct (is_str tool_name "get_weather");
      [| destruct (is_str tool_name "get_weather_forecast")];
      intros [= <-]; try kinds.
    + destruct (bind _ _); cbn [Minimal.tool_reply]; kinds.
    + destruct (bind _ _); cbn [Minimal.tool_reply]; kinds.
  - unfold Simple.handle_request. cbn [fst].
    rewrite request_id_of_dict, !py_get_dict. cbn [bind].
    by_method (dict_get d "method" JNull); cbv iota;
      try (intros [= <-]; kinds); try discriminate.
    destruct (py_get _ "name" _) as [tool_name |]; cbn [bind];
      [| discriminate].
    destruct (py_get _ "arguments" _) as [arguments |]; cbn [bind];
      [| discriminate].
    intros [= <-]. destruct (is_str tool_name "get_weather"); [| kinds].
    destruct (py_get arguments _ _) as [location |]; cbn [bind]; [| kinds].
    destruct (Simple.get_weather rt location); cbn [bind]; kinds.
Qed.

(** ** The loops *)

Lemma minimal_to_print_length (rt : runtime) (response : option string) :
  (List.length (Minimal.to_print response) <= 1)%nat.
Proof.
  destruct response as [s |]; cbn; [| lia].
  destruct (String.eqb s EmptyString); cbn; lia.
Qed.

Lemma simple_turn_length (rt : runtime) (srv : Simple.SimpleMCPServer)
  (line : string) :
  (List.length (fst (Simple.turn rt srv line)) <= 1)%nat.
Proof.
  unfold Simple.turn. destruct (String.eqb _ _); cbn [fst List.length]; [lia |].
  destruct (json_loads rt (strip line)) as [request | e];
    cbn [fst List.length]; [| lia].
  destruct (Simple.handle_request rt srv request) as [[[response |] | e] srv'];
    cbn [fst List.length]; lia.
Qed.

(** X5.  Either loop prints at most one line for each line it reads. *)
Theorem one_line_out_per_line_in (rt : runtime) (stdin : list string) :
  (List.length (Minimal.main rt stdin) <= List.length stdin)%nat /\
  (List.length (Simple.main rt stdin) <= List.length stdin)%nat.
Proof.
  split.
  - unfold Minimal.main. generalize (Minimal.new rt) as self. intros self.
    induction stdin as [| line rest IH]; cbn [Minimal.serve List.length];
      [lia |].
    destruct (String.eqb _ _); cbn [List.length]; [lia |].
    destruct (Minimal.handle_message rt self line) as [response | e];
      cbn [List.length]; [| lia].
    rewrite length_app.
    pose proof (minimal_to_print_length rt response). lia.
  - unfold Simple.main. generalize (Simple.main_server) as srv.
    induction stdin as [| line rest IH]; intros srv;
      cbn [Simple.serve fst List.length]; [lia |].
    destruct (String.eqb _ _); cbn [fst List.length]; [lia |].
    pose proof (simple_turn_length rt srv line) as Hturn.
    destruct (Simple.turn rt srv line) as [out srv']. cbn [fst] in Hturn.
    specialize (IH srv').
    destruct (Simple.serve rt srv' rest) as [outs srv'']. cbn [fst] in *.
    rewrite length_app. lia.
Qed.

(** X10.  An empty read ends either loop: what follows it on the input is
    never read, and the output is that of the lines before it. *)
Theorem serve_stops_at_end_of_input (rt : runtime)
  (self : Minimal.MCPWeatherServer) (srv : Simple.SimpleMCPServer)
  (before after : list string) :
  Minimal.serve rt self (before ++ EmptyString :: after)
  = Minimal.serve rt self before /\
  Simple.serve rt srv (before ++ EmptyString :: after)
  = Simple.serve rt srv before.
Proof.
  split.
  - induction before as [| line rest IH]; [reflexivity |].
    cbn [app Minimal.serve]. now rewrite IH.
  - revert srv. induction before as [| line rest IH]; intros srv;
      [reflexivity |].
    cbn [app Simple.serve]. destruct (String.eqb _ _); [reflexivity |].
    destruct (Simple.turn rt srv line) as [out srv']. now rewrite IH.
Qed.

(** X11.  The loops keep nothing between lines: the output for two runs of
    lines read one after the other is the output for the first followed by
    the output for the second, as long as the first holds no empty read and,
    for [minimal_weather_server.py], no line on which [handle_message]
    raises. *)
Theorem serve_app (rt : runtime) (self : Minimal.MCPWeatherServer)
  (srv : Simple.SimpleMCPServer) (first second : list string) :
  Forall (fun line => line <> EmptyString) first ->
  (Forall (fun line =>
             exists response,
               Minimal.handle_message rt self line = Returned response)
     first ->
   Minimal.serve rt self (first ++ second)
   = (Minimal.serve rt self first ++ Minimal.serve rt self second)%list) /\
  fst (Simple.serve rt srv (first ++ second))
  = (fst (Simple.serve rt srv first) ++ fst (Simple.serve rt srv second))%list.
Proof.
  intros Hlines. split.
  - intros Hreturns. induction Hlines as [| line rest Hline _ IH];
      [reflexivity |].
    inversion Hreturns as [| ? ? [response Hr] Hrest]; subst.
    cbn [app Minimal.serve]. apply String.eqb_neq in Hline.
    rewrite Hline, Hr, (IH Hrest). now rewrite app_assoc.
  - induction Hlines as [| line rest Hline _ IH]; [reflexivity |].
    cbn [app]. rewrite !simple_serve_continues by assumption.
    rewrite simple_turn_state, IH. now rewrite app_assoc.
Qed.

Lemma serve_app_witness :
  (Forall (fun line =>
             exists response,
               Minimal.handle_message Reference.rt (Minimal.new Reference.rt)
                 line = Returned response)
     ["not-json"; Reference.q "{'id':1,'method':'tools/list'}"] ->
   Minimal.serve Reference.rt (Minimal.new Reference.rt)
     (["not-json"; Reference.q "{'id':1,'method':'tools/list'}"] ++ ["5"])
   = (Minimal.serve Reference.rt (Minimal.new Reference.rt)
        ["not-json"; Reference.q "{'id':1,'method':'tools/list'}"]
      ++ Minimal.serve Reference.rt (Minimal.new Reference.rt) ["5"])%list) /\
  fst (Simple.serve Reference.rt Simple.main_server
         (["not-json"; Reference.q "{'id':1,'method':'tools/list'}"] ++ ["5"]))
  = (fst (Simple.serve Reference.rt Simple.main_server
            ["not-json"; Reference.q "{'id':1,'method':'tools/list'}"])
     ++ fst (Simple.serve Reference.rt Simple.main_server ["5"]))%list.
Proof.
  apply (serve_app Reference.rt (Minimal.new Reference.rt) Simple.main_server
           ["not-json"; Reference.q "{'id':1,'method':'tools/list'}"] ["5"]).
  repeat constructor; discriminate.
Defined.

(** ** The registry of [simple_weather_server.py] *)

Lemma add_tools_tools (entries : list (string * string * json)) :
  forall srv,
    Simple.tools (add_tools srv entries) =
    (Simple.tools srv ++
     map (fun entry =>
            JObj [("name", JStr (fst (fst entry)));
                  ("description", JStr (snd (fst entry)));
                  ("inputSchema", snd entry)]) entries)%list.
Proof.
  induction entries as [| entry rest IH]; intros srv; cbn [add_tools fold_left map].
  - now rewrite app_nil_r.
  - unfold add_tools in IH. rewrite IH. cbn [Simple.add_tool Simple.tools].
    now rewrite <- app_assoc.
Qed.

(** X9.  After any run of [add_tool] calls [tools/list] shows the tools
    there were before followed by the new ones, in the order of the calls,
    each with its [name], [description] and [inputSchema]; a name given
    twice is listed twice. *)
Theorem simple_registration_order (rt : runtime) (srv : Simple.SimpleMCPServer)
  (entries : list (string * string * json)) (d : dict) :
  is_str (method_of d) "tools/list" = true ->
  fst (Simple.handle_request rt (add_tools srv entries) (JObj d)) =
  Returned (Some (success_envelope (simple_id d)
    (tools_result
       (Simple.tools srv ++
        map (fun entry =>
               JObj [("name", JStr (fst (fst entry)));
                     ("description", JStr (snd (fst entry)));
                     ("inputSchema", snd entry)]) entries)%list))).
Proof.
  intros H. rewrite (simple_tools_list rt _ d H). cbn [fst].
  now rewrite add_tools_tools.
Qed.

Lemma simple_registration_order_witness :
  fst (Simple.handle_request Reference.rt
         (add_tools Simple.main_server
            [("echo", "Echo", JObj []); ("echo", "Echo again", JObj [])])
         (JObj [("id", JNum 2); ("method", JStr "tools/list")])) =
  Returned (Some (success_envelope (JNum 2)
    (tools_result
       (Simple.tools Simple.main_server ++
        [JObj [("name", JStr "echo"); ("description", JStr "Echo");
               ("inputSchema", JObj [])];
         JObj [("name", JStr "echo"); ("description", JStr "Echo again");
               ("inputSchema", JObj [])]])%list))).
Proof.
  apply (simple_registration_order Reference.rt Simple.main_server
           [("echo", "Echo", JObj []); ("echo", "Echo again", JObj [])]
           [("id", JNum 2); ("method", JStr "tools/list")]).
  reflexivity.
Defined.

(** X8.  The registry does not steer the dispatch: but for [initialize] and
    [tools/list], [handle_request] answers a request the same on any two
    server objects.  So [get_weather] can be called when it is not
    registered, and a tool registered under another name is unknown. *)
Theorem simple_reply_ignores_registry (rt : runtime)
  (srv other : Simple.SimpleMCPServer) (d : dict) :
  is_str (method_of d) "initialize" = false ->
  is_str (method_of d) "tools/list" = false ->
  fst (Simple.handle_request rt srv (JObj d))
  = fst (Simple.handle_request rt other (JObj d)).
Proof.
  unfold method_of. intros H1 H2. unfold Simple.handle_request. cbn [fst].
  rewrite request_id_of_dict, !py_get_dict. cbn [bind].
  now rewrite H1, H2.
Qed.

Lemma simple_reply_ignores_registry_witness :
  fst (Simple.handle_request Reference.rt
         (add_tools (Simple.new "empty") [("echo", "Echo", JObj [])])
         (JObj [("id", JNum 1); ("method", JStr "tools/call");
                ("params", JObj [("name", JStr "echo")])]))
  = fst (Simple.handle_request Reference.rt Simple.main_server
           (JObj [("id", JNum 1); ("method", JStr "tools/call");
                  ("params", JObj [("name", JStr "echo")])])).
Proof.
  apply (simple_reply_ignores_registry Reference.rt
           (add_tools (Simple.new "empty") [("echo", "Echo", JObj [])])
           Simple.main_server
           [("id", JNum 1); ("method", JStr "tools/call");
            ("params", JObj [("name", JStr "echo")])]);
    reflexivity.
Defined.

(** ** Advertised tools and callable tools *)

Lemma minimal_registered (name : json) :
  registered Minimal.tools name = true ->
  is_str name "get_weather" = true \/
  is_str name "get_weather_forecast" = true.
Proof.
  unfold registered. cbn [tool_names Minimal.tools map existsb].
  cbn [dict_get dict_lookup String.eqb Ascii.eqb Bool.eqb].
  intros H. apply orb_true_iff in H as [H | H]; [now left |].
  apply orb_true_iff in H as [H | H]; [now right | discriminate].
Qed.

(** X12.  The tools [tools/list] of [minimal_weather_server.py] advertises
    are the tools [tools/call] knows: a call with an object as [params] is
    answered with the [Unknown tool] error exactly when its name is none of
    the advertised ones. *)
Theorem minimal_unknown_iff_unregistered (rt : runtime)
  (self : Minimal.MCPWeatherServer) (d p : dict) :
  is_str (method_of d) "tools/call" = true ->
  dict_get d "params" (JObj []) = JObj p ->
  (Minimal.process_request rt self (JObj d) =
   Returned (Some (error_envelope (dict_get d "id" JNull) (-32601)
     ("Unknown tool: " ++ py_str rt (dict_get p "name" JNull)))) <->
   registered Minimal.tools (dict_get p "name" JNull) = false).
Proof.
  intros Hcall Hparams. split; [| now apply minimal_call_unknown].
  destruct (registered Minimal.tools (dict_get p "name" JNull)) eqn:Hreg;
    [| reflexivity].
  apply minimal_registered in Hreg as [Hname | Hname].
  - rewrite (minimal_call_weather rt d p Hcall Hparams self Hname).
    destruct (bind _ _); cbn [Minimal.tool_reply]; discriminate.
  - rewrite (minimal_call_forecast rt d p Hcall Hparams self Hname).
    destruct (bind _ _); cbn [Minimal.tool_reply]; discriminate.
Qed.

Lemma minimal_unknown_iff_unregistered_witness :
  Minimal.process_request Reference.rt (Minimal.new Reference.rt)
    (JObj [("id", JNum 3); ("method", JStr "tools/call");
           ("params", JObj [("name", JStr "get_weather");
                            ("arguments", JObj [("location", JStr "London")])])])
  = Returned (Some (error_envelope (JNum 3) (-32601)
      ("Unknown tool: " ++ "get_weather"))) <->
  registered Minimal.tools (JStr "get_weather") = false.
Proof.
  apply (minimal_unknown_iff_unregistered Reference.rt
           (Minimal.new Reference.rt)
           [("id", JNum 3); ("method", JStr "tools/call");
            ("params", JObj [("name", JStr "get_weather");
                             ("arguments", JObj [("location", JStr "London")])])]
           [("name", JStr "get_weather");
            ("arguments", JObj [("location", JStr "London")])]);
    reflexivity.
Defined.

(** ** What the fetchers return *)

Lemma prefix_append (p s : string) : prefix p (p ++ s) = true.
Proof.
  induction p as [| c p IH]; cbn; [now destruct s |].
  destruct (ascii_dec c c); [exact IH | congruence].
Qed.

Lemma report_of_prefix (rt : runtime) (location : json) (r : fetched) :
  r = Report (Minimal.report_of rt location r) \/
  prefix "❌ Error: " (Minimal.report_of rt location r) = true.
Proof.
  destruct r as [text | status | code reason | msg]; cbn [Minimal.report_of].
  - now left.
  - right. apply (prefix_append "❌ Error: ").
  - right. destruct (Z.eqb code 404); apply (prefix_append "❌ Error: ").
  - right. apply (prefix_append "❌ Error: ").
Qed.

(** X13.  A fetcher never raises, and what it returns is the report of a
    successful exchange or a text that says it is an error: one starting
    with the cross mark and [Error: ] in [minimal_weather_server.py], with
    [Error] in [simple_weather_server.py]. *)
Theorem fetchers_report_failures_as_text (rt : runtime) (location days : json) :
  (exists text,
     Minimal.get_weather_impl rt location = Returned text /\
     (fetch_weather rt (key_text (api_key rt)) location = Report text \/
      prefix "❌ Error: " text = true)) /\
  (exists text,
     Minimal.get_weather_forecast_impl rt location days = Returned text /\
     (fetch_forecast rt (key_text (api_key rt)) location days = Report text \/
      prefix "❌ Error: " text = true)) /\
  (exists text,
     Simple.get_weather rt location = Returned text /\
     (fetch_simple rt (key_text (api_key rt)) location = Returned text \/
      prefix "Error" text = true)).
Proof.
  repeat split.
  - unfold Minimal.get_weather_impl.
    destruct (no_key _); [eexists; split; [reflexivity | now right] |].
    destruct (negb _); [eexists; split; [reflexivity | now right] |].
    eexists; split; [reflexivity |].
    destruct (report_of_prefix rt location
                (fetch_weather rt (key_text (api_key rt)) location));
      [left | right]; assumption.
  - unfold Minimal.get_weather_forecast_impl.
    destruct (no_key _); [eexists; split; [reflexivity | now right] |].
    destruct (negb _); [eexists; split; [reflexivity | now right] |].
    eexists; split; [reflexivity |].
    destruct (report_of_prefix rt location
                (fetch_forecast rt (key_text (api_key rt)) location days));
      [left | right]; assumption.
  - unfold Simple.get_weather.
    destruct (no_key _); [eexists; split; [reflexivity | now right] |].
    destruct (negb _); [eexists; split; [reflexivity | now right] |].
    destruct (fetch_simple rt (key_text (api_key rt)) location) as [text | e].
    + eexists; split; [reflexivity | now left].
    + eexists; split; [reflexivity | right]. reflexivity.
Qed.

(** ** The tool handler of [weather_server.py] *)

Lemma dict_lookup_app (k : string) (d d' : dict) :
  dict_lookup k (d ++ d')%list =
  match dict_lookup k d with
  | Some v => Some v
  | None => dict_lookup k d'
  end.
Proof.
  induction d as [| [k' v] d IH]; cbn; [reflexivity |].
  now destruct (String.eqb k k').
Qed.

(** X15.  [call_tool] answers every call with exactly one content item of
    type [text]: a missing key, an unknown tool, a missing location, a fault
    of a fetcher and a failed exchange all come back as text. *)
Theorem sdk_call_tool_one_text_item (rt : runtime) (name : string)
  (arguments : dict) :
  exists text,
    Sdk.call_tool rt name arguments
    = [{| Sdk.type := "text"; Sdk.text := text |}].
Proof.
  unfold Sdk.call_tool. destruct (no_key _); [eauto |].
  destruct (String.eqb name "get_current_weather").
  - destruct (Sdk.subscript _ _); cbn [bind]; [| eauto].
    destruct (Sdk.get_current_weather _ _ _); cbn [bind]; eauto.
  - destruct (String.eqb name "get_weather_forecast"); [| eauto].
    destruct (Sdk.subscript _ _); cbn [bind]; [| eauto].
    destruct (Sdk.get_weather_forecast _ _ _); cbn [bind]; eauto.
Qed.

(** X16.  Leaving [units] out of the arguments is the same as asking for
    [metric]. *)
Theorem sdk_units_default (rt : runtime) (name : string) (arguments : dict) :
  dict_lookup "units" arguments = None ->
  Sdk.call_tool rt name arguments
  = Sdk.call_tool rt name (arguments ++ [("units", JStr "metric")])%list.
Proof.
  intros H. unfold Sdk.call_tool, Sdk.subscript, dict_get.
  rewrite !dict_lookup_app, H. cbn [dict_lookup String.eqb Ascii.eqb Bool.eqb].
  now destruct (dict_lookup "location" arguments).
Qed.

Lemma sdk_units_default_witness :
  Sdk.call_tool Reference.rt "get_current_weather"
    [("location", JStr "London")]
  = Sdk.call_tool Reference.rt "get_current_weather"
      ([("location", JStr "London")] ++ [("units", JStr "metric")])%list.
Proof.
  apply (sdk_units_default Reference.rt "get_current_weather"
           [("location", JStr "London")]).
  reflexivity.
Defined.

(** X17.  When the service answers with a status other than 200, the body
    is not looked at and the call comes back as a text naming the location
    and the status. *)
Theorem sdk_bad_status (rt : runtime) (arguments : dict) (location : json)
  (status : Z) (body : outcome string) :
  no_key (api_key rt) = false ->
  dict_lookup "location" arguments = Some location ->
  status <> 200%Z ->
  (http_get rt "/weather" location (dict_get arguments "units" (JStr "metric"))
   = Returned (status, body) ->
   Sdk.call_tool rt "get_current_weather" arguments =
   [{| Sdk.type := "text";
       Sdk.text := "Error: Could not get weather for " ++ py_str rt location
                   ++ ". Status: " ++ str_of_Z status |}]) /\
  (http_get rt "/forecast" location (dict_get arguments "units" (JStr "metric"))
   = Returned (status, body) ->
   Sdk.call_tool rt "get_weather_forecast" arguments =
   [{| Sdk.type := "text";
       Sdk.text := "Error: Could not get forecast for " ++ py_str rt location
                   ++ ". Status: " ++ str_of_Z status |}]).
Proof.
  intros Hkey Hloc Hstatus. apply Z.eqb_neq in Hstatus.
  split; intros Hget; unfold Sdk.call_tool, Sdk.subscript;
    rewrite Hkey, Hloc; cbn [String.eqb Ascii.eqb Bool.eqb bind];
    [unfold Sdk.get_current_weather | unfold Sdk.get_weather_forecast];
    rewrite Hget; cbn [bind]; now rewrite Hstatus.
Qed.

Lemma sdk_bad_status_witness :
  (http_get Reference.rt "/weather" (JStr "Atlantis") (JStr "metric")
   = Returned (404%Z, Raised (KeyError "main")) ->
   Sdk.call_tool Reference.rt "get_current_weather"
     [("location", JStr "Atlantis")] =
   [{| Sdk.type := "text";
       Sdk.text := "Error: Could not get weather for " ++ "Atlantis"
                   ++ ". Status: " ++ str_of_Z 404 |}]) /\
  (http_get Reference.rt "/forecast" (JStr "Atlantis") (JStr "metric")
   = Returned (404%Z, Raised (KeyError "main")) ->
   Sdk.call_tool Reference.rt "get_weather_forecast"
     [("location", JStr "Atlantis")] =
   [{| Sdk.type := "text";
       Sdk.text := "Error: Could not get forecast for " ++ "Atlantis"
                   ++ ". Status: " ++ str_of_Z 404 |}]).
Proof.
  apply (sdk_bad_status Reference.rt [("location", JStr "Atlantis")]
           (JStr "Atlantis") 404 (Raised (KeyError "main")));
    [reflexivity | reflexivity | discriminate].
Defined.

(** ** Arguments that are no object *)

(** X14.  A call of a known tool whose [arguments] is not an object is
    answered with code -32603, the [id] of the request and the text of the
    [AttributeError] of [arguments.get], after the prefix of the tool's
    handler. *)
Theorem bad_arguments (rt : runtime) (self : Minimal.MCPWeatherServer)
  (srv : Simple.SimpleMCPServer) (d p : dict) (arguments : json) :
  is_str (method_of d) "tools/call" = true ->
  dict_get d "params" (JObj []) = JObj p ->
  dict_get p "arguments" (JObj []) = arguments ->
  (forall a, arguments <> JObj a) ->
  (is_str (dict_get p "name" JNull) "get_weather" = true ->
   Minimal.process_request rt self (JObj d) =
   Returned (Some (error_envelope (dict_get d "id" JNull) (-32603)
     ("Weather API error: '" ++ type_name arguments
      ++ "' object has no attribute 'get'"))) /\
   fst (Simple.handle_request rt srv (JObj d)) =
   Returned (Some (error_envelope (simple_id d) (-32603)
     ("Tool execution error: '" ++ type_name arguments
      ++ "' object has no attribute 'get'")))) /\
  (is_str (dict_get p "name" JNull) "get_weather_forecast" = true ->
   Minimal.process_request rt self (JObj d) =
   Returned (Some (error_envelope (dict_get d "id" JNull) (-32603)
     ("Forecast API error: '" ++ type_name arguments
      ++ "' object has no attribute 'get'")))).
Proof.
  intros Hcall Hparams Hargs Hobj. split; intros Hname.
  - split.
    + rewrite (minimal_call_weather rt d p Hcall Hparams self Hname), Hargs.
      destruct arguments; try reflexivity. now destruct (Hobj fields).
    + rewrite (simple_call_weather rt d p Hcall Hparams srv Hname), Hargs.
      destruct arguments; try reflexivity. now destruct (Hobj fields).
  - rewrite (minimal_call_forecast rt d p Hcall Hparams self Hname), Hargs.
    destruct arguments; try reflexivity. now destruct (Hobj fields).
Qed.

Lemma bad_arguments_witness :
  (Minimal.process_request Reference.rt (Minimal.new Reference.rt)
     (JObj [("id", JNum 8); ("method", JStr "tools/call");
            ("params", JObj [("name", JStr "get_weather");
                             ("arguments", JStr "London")])]) =
   Returned (Some (error_envelope (JNum 8) (-32603)
     "Weather API error: 'str' object has no attribute 'get'")) /\
   fst (Simple.handle_request Reference.rt Simple.main_server
     (JObj [("id", JNum 8); ("method", JStr "tools/call");
            ("params", JObj [("name", JStr "get_weather");
                             ("arguments", JStr "London")])])) =
   Returned (Some (error_envelope (JNum 8) (-32603)
     "Tool execution error: 'str' object has no attribute 'get'"))).
Proof.
  destruct (bad_arguments Reference.rt (Minimal.new Reference.rt)
              Simple.main_server
              [("id", JNum 8); ("method", JStr "tools/call");
               ("params", JObj [("name", JStr "get_weather");
                                ("arguments", JStr "London")])]
              [("name", JStr "get_weather"); ("arguments", JStr "London")]
              (JStr "London") eq_refl eq_refl eq_refl) as [H _].
  - discriminate.
  - exact (H eq_refl).
Defined.

(** * The days of a forecast *)

Section Days.

Import Forecast.

Lemma entries_of_add_item (date d : string) (item : json) :
  forall days,
    entries_of date (add_item days d item) =
    (entries_of date days ++ if String.eqb d date then [item] else [])%list.
Proof.
  induction days as [| [d' items] rest IH]; unfold entries_of in *;
    cbn [add_item find fst snd].
  - destruct (String.eqb d date); reflexivity.
  - destruct (String.eqb_spec d' d) as [-> | Hd]; cbn [find fst snd].
    + destruct (String.eqb d date); [reflexivity | now rewrite app_nil_r].
    + destruct (String.eqb_spec d' date) as [-> | Hdate]; [| exact IH].
      destruct (String.eqb_spec d date) as [-> | _];
        [congruence | now rewrite app_nil_r].
Qed.

Lemma group_entries (date : string) (entries : list json) :
  forall start days,
    group start entries = Some days ->
    entries_of date days =
    (entries_of date start ++ filter (on_date date) entries)%list.
Proof.
  induction entries as [| item rest IH]; intros start days; cbn [group filter].
  - intros [= <-]. now rewrite app_nil_r.
  - unfold on_date at 1. destruct (date_of item) as [d |]; [| discriminate].
    intros H. rewrite (IH _ _ H), entries_of_add_item, <- app_assoc.
    now destruct (String.eqb d date).
Qed.

Lemma total_add_item (d : string) (item : json) :
  forall days, total (add_item days d item) = S (total days).
Proof.
  unfold total.
  induction days as [| [d' items] rest IH]; cbn [add_item]; [reflexivity |].
  destruct (String.eqb d' d); cbn [map snd concat].
  - rewrite !length_app. cbn [List.length]. lia.
  - rewrite !length_app, IH. lia.
Qed.

Lemma group_total (entries : list json) :
  forall start days,
    group start entries = Some days ->
    total days = (total start + List.length entries)%nat.
Proof.
  induction entries as [| item rest IH]; intros start days; cbn [group].
  - intros [= <-]. cbn. lia.
  - destruct (date_of item) as [d |]; [| discriminate].
    intros H. rewrite (IH _ _ H), total_add_item. cbn [List.length]. lia.
Qed.

(** X18.  When the loop over the entries ends, each day of
    [daily_forecasts] holds exactly the entries of its date, in the order of
    the list, a date without entries has no day, and the days together hold
    as many entries as the list: none is lost and none is doubled. *)
Theorem daily_forecasts_by_date (entries : list json)
  (days : list (string * list json)) :
  daily_forecasts entries = Some days ->
  (forall date, entries_of date days = filter (on_date date) entries) /\
  total days = List.length entries.
Proof.
  intros H. split.
  - intros date. now rewrite (group_entries date entries [] days H).
  - now rewrite (group_total entries [] days H).
Qed.

Lemma daily_forecasts_by_date_witness :
  (forall date,
     entries_of date
       [("2024-01-01",
          [entry "2024-01-01 09:00:00"; entry "2024-01-01 12:00:00"]);
        ("2024-01-02", [entry "2024-01-02 00:00:00"])]
     = filter (on_date date)
         [entry "2024-01-01 09:00:00"; entry "2024-01-02 00:00:00";
          entry "2024-01-01 12:00:00"]) /\
  total
    [("2024-01-01",
       [entry "2024-01-01 09:00:00"; entry "2024-01-01 12:00:00"]);
     ("2024-01-02", [entry "2024-01-02 00:00:00"])]
  = List.length
      [entry "2024-01-01 09:00:00"; entry "2024-01-02 00:00:00";
       entry "2024-01-01 12:00:00"].
Proof.
  apply (daily_forecasts_by_date
           [entry "2024-01-01 09:00:00"; entry "2024-01-02 00:00:00";
            entry "2024-01-01 12:00:00"]).
  vm_compute. reflexivity.
Defined.

Lemma keys_add_item (d : string) (item : json) :
  forall days,
    map fst (add_item days d item) =
    if existsb (String.eqb d) (map fst days) then map fst days
    else (map fst days ++ [d])%list.
Proof.
  induction days as [| [d' items] rest IH]; cbn [add_item map fst existsb app];
    [reflexivity |].
  rewrite (String.eqb_sym d d').
  destruct (String.eqb d' d); cbn [map fst orb]; [reflexivity |].
  rewrite IH. now destruct (existsb _ _).
Qed.

Lemma first_seen_ext (l : list string) :
  forall seen seen',
    (forall x, existsb (String.eqb x) seen = existsb (String.eqb x) seen') ->
    first_seen seen l = first_seen seen' l.
Proof.
  induction l as [| x rest IH]; intros seen seen' H; cbn [first_seen];
    [reflexivity |].
  rewrite <- (H x). destruct (existsb _ seen); [now apply IH |].
  f_equal. apply IH. intros y. cbn [existsb]. now rewrite H.
Qed.

Lemma existsb_snoc (x d : string) (l : list string) :
  existsb (String.eqb x) (l ++ [d]) = existsb (String.eqb x) (d :: l).
Proof.
  rewrite existsb_app. cbn [existsb].
  now rewrite orb_false_r, orb_comm.
Qed.

Lemma group_keys (entries : list json) :
  forall start days,
    group start entries = Some days ->
    map fst days =
    (map fst start ++ first_seen (map fst start) (dates entries))%list.
Proof.
  induction entries as [| item rest IH]; intros start days;
    cbn [group dates first_seen].
  - intros [= <-]. now rewrite app_nil_r.
  - destruct (date_of item) as [d |]; [| discriminate].
    intros H. rewrite (IH _ _ H), keys_add_item. cbn [first_seen].
    destruct (existsb (String.eqb d) (map fst start)); [reflexivity |].
    rewrite <- app_assoc. cbn [app]. do 2 f_equal.
    apply first_seen_ext. intros x. apply existsb_snoc.
Qed.

Lemma first_seen_fresh (l : list string) :
  forall seen x,
    In x (first_seen seen l) -> existsb (String.eqb x) seen = false.
Proof.
  induction l as [| y rest IH]; intros seen x; cbn [first_seen];
    [intros [] |].
  destruct (existsb (String.eqb y) seen) eqn:Hy; [apply IH |].
  intros [<- | Hin]; [exact Hy |].
  apply IH in Hin. cbn [existsb] in Hin.
  now apply orb_false_iff in Hin.
Qed.

Lemma first_seen_nodup (l : list string) :
  forall seen, NoDup (first_seen seen l).
Proof.
  induction l as [| y rest IH]; intros seen; cbn [first_seen];
    [constructor |].
  destruct (existsb (String.eqb y) seen); [apply IH |].
  constructor; [| apply IH].
  intros Hin. apply first_seen_fresh in Hin. cbn [existsb] in Hin.
  now rewrite String.eqb_refl in Hin.
Qed.

Lemma add_item_filled (d : string) (item : json) :
  forall days,
    Forall (fun day => snd day <> []) days ->
    Forall (fun day => snd day <> []) (add_item days d item).
Proof.
  induction days as [| [d' items] rest IH]; intros H; cbn [add_item].
  - repeat constructor. discriminate.
  - inversion H as [| ? ? Hhead Hrest]; subst.
    destruct (String.eqb d' d); constructor; cbn [snd] in *; auto.
    now destruct items.
Qed.

Lemma group_filled (entries : list json) :
  forall start days,
    Forall (fun day => snd day <> []) start ->
    group start entries = Some days ->
    Forall (fun day => snd day <> []) days.
Proof.
  induction entries as [| item rest IH]; intros start days Hstart;
    cbn [group].
  - now intros [= <-].
  - destruct (date_of item) as [d |]; [| discriminate].
    apply IH. now apply add_item_filled.
Qed.

(** X19.  The days of [daily_forecasts] are the dates of the entries in the
    order in which they first occur, each date once, and no day is empty. *)
Theorem daily_forecasts_days (entries : list json)
  (days : list (string * list json)) :
  daily_forecasts entries = Some days ->
  map fst days = first_seen [] (dates entries) /\
  NoDup (map fst days) /\
  Forall (fun day => snd day <> []) days.
Proof.
  intros H. pose proof (group_keys entries [] days H) as Hkeys.
  cbn [map app] in Hkeys. repeat split.
  - exact Hkeys.
  - rewrite Hkeys. apply first_seen_nodup.
  - now apply (group_filled entries [] days).
Qed.

Lemma daily_forecasts_days_witness :
  map fst
    [("2024-01-01",
       [entry "2024-01-01 09:00:00"; entry "2024-01-01 12:00:00"]);
     ("2024-01-02", [entry "2024-01-02 00:00:00"])]
  = first_seen []
      (dates [entry "2024-01-01 09:00:00"; entry "2024-01-02 00:00:00";
              entry "2024-01-01 12:00:00"]) /\
  NoDup
    (map fst
       [("2024-01-01",
          [entry "2024-01-01 09:00:00"; entry "2024-01-01 12:00:00"]);
        ("2024-01-02", [entry "2024-01-02 00:00:00"])]) /\
  Forall (fun day => snd day <> [])
    [("2024-01-01",
       [entry "2024-01-01 09:00:00"; entry "2024-01-01 12:00:00"]);
     ("2024-01-02", [entry "2024-01-02 00:00:00"])].
Proof.
  apply (daily_forecasts_days
           [entry "2024-01-01 09:00:00"; entry "2024-01-02 00:00:00";
            entry "2024-01-01 12:00:00"]).
  vm_compute. reflexivity.
Defined.

Lemma group_fails (entries : list json) :
  forall start,
    group start entries = None <->
    Exists (fun item => date_of item = None) entries.
Proof.
  induction entries as [| item rest IH]; intros start; cbn [group].
  - split; [discriminate | intros H; inversion H].
  - destruct (date_of item) as [d |] eqn:Hd.
    + rewrite IH. split; [now constructor 2 |].
      intros H. inversion H as [? ? Hitem | ? ? Hrest]; subst;
        [congruence | assumption].
    + split; [now constructor 1 | reflexivity].
Qed.

(** X20.  The loop fails exactly when some entry has no usable time stamp:
    no [dt_txt], one that is not a string, or one without a word in it.  One
    such entry makes the whole forecast fail. *)
Theorem daily_forecasts_fails_iff (entries : list json) :
  daily_forecasts entries = None <->
  Exists (fun item => date_of item = None) entries.
Proof. apply group_fails. Qed.

(** X21.  An integer [days] shows that many days from the first, or all
    when there are fewer, and a negative one drops days from the end:
    nothing holds [days] to the 1 to 5 of the schema.  A [days] that is a
    fraction, a string, a list or an object makes the forecast fail. *)
Theorem days_shown_count (entries : list json)
  (all : list (string * list json)) (n : Z) :
  daily_forecasts entries = Some all ->
  (exists shown hidden,
     days_shown (JNum n) entries = Some shown /\
     all = (shown ++ hidden)%list /\
     List.length shown =
     if (n <? 0)%Z then (List.length all - Z.to_nat (- n))%nat
     else Nat.min (Z.to_nat n) (List.length all)) /\
  (forall days,
     match days with
     | JFloat _ | JStr _ | JArr _ | JObj _ => True
     | _ => False
     end ->
     days_shown days entries = None).
Proof.
  intros H. unfold days_shown. rewrite H. split.
  - cbn [slice_to]. eexists. eexists. split; [reflexivity |]. split.
    + symmetry. apply firstn_skipn.
    + rewrite length_firstn. destruct (n <? 0)%Z; lia.
  - intros days Hdays. destruct days; cbn [slice_to]; tauto.
Qed.

Lemma days_shown_count_witness :
  (exists shown hidden,
     days_shown (JNum 7)
       [entry "2024-01-01 09:00:00"; entry "2024-01-02 00:00:00"]
     = Some shown /\
     [("2024-01-01", [entry "2024-01-01 09:00:00"]);
      ("2024-01-02", [entry "2024-01-02 00:00:00"])]
     = (shown ++ hidden)%list /\
     List.length shown =
     if (7 <? 0)%Z
     then (List.length
             [("2024-01-01", [entry "2024-01-01 09:00:00"]);
              ("2024-01-02", [entry "2024-01-02 00:00:00"])]
           - Z.to_nat (- 7))%nat
     else Nat.min (Z.to_nat 7)
            (List.length
               [("2024-01-01", [entry "2024-01-01 09:00:00"]);
                ("2024-01-02", [entry "2024-01-02 00:00:00"])])) /\
  (forall days,
     match days with
     | JFloat _ | JStr _ | JArr _ | JObj _ => True
     | _ => False
     end ->
     days_shown days
       [entry "2024-01-01 09:00:00"; entry "2024-01-02 00:00:00"] = None).
Proof.
  apply (days_shown_count
           [entry "2024-01-01 09:00:00"; entry "2024-01-02 00:00:00"]
           [("2024-01-01", [entry "2024-01-01 09:00:00"]);
            ("2024-01-02", [entry "2024-01-02 00:00:00"])] 7).
  vm_compute. reflexivity.
Defined.

End Days.

(** ** The forecast shown for a day *)

Section Midday.

Import Forecast.

Variable A : Type.
Variable key : A -> option Z.

Lemma min_from_least (rest : list A) :
  forall best least m,
    key best = Some least ->
    min_from key best least rest = Some m ->
    exists before after k,
      best :: rest = (before ++ m :: after)%list /\
      key m = Some k /\
      (k <= least)%Z /\
      (forall x, In x before -> exists kx, key x = Some kx /\ (k < kx)%Z) /\
      (forall x, In x after -> exists kx, key x = Some kx /\ (k <= kx)%Z).
Proof.
  induction rest as [| x rest IH]; intros best least m Hbest; cbn [min_from].
  - intros [= <-]. exists [], [], least.
    split; [reflexivity | split; [assumption | split; [lia | split]]];
      intros ? [].
  - destruct (key x) as [kx |] eqn:Hx; [| discriminate].
    destruct (Z.ltb_spec kx least) as [Hlt | Hge]; intros H.
    + destruct (IH x kx m Hx H) as (before & after & k & Heq & Hm & Hk & Hb & Ha).
      exists (best :: before), after, k. rewrite Heq.
      split; [reflexivity | split; [assumption | split; [lia | split]]];
        [| assumption].
      intros y [<- | Hy]; [| now apply Hb].
      exists least. split; [assumption | lia].
    + destruct (IH best least m Hbest H)
        as (before & after & k & Heq & Hm & Hk & Hb & Ha).
      destruct before as [| b before]; cbn [app] in Heq.
      * injection Heq as <- <-. exists [], (x :: rest), k.
        split; [reflexivity | split; [assumption | split; [lia | split]]];
          [intros ? [] |].
        intros y [<- | Hy]; [| now apply Ha].
        exists kx. split; [assumption |].
        rewrite Hbest in Hm. injection Hm as <-. lia.
      * injection Heq as <- ->. exists (best :: x :: before), after, k.
        split; [reflexivity | split; [assumption | split; [lia | split]]];
          [| assumption].
        intros y [<- | [<- | Hy]].
        -- apply Hb. now left.
        -- exists kx. split; [assumption |].
           destruct (Hb best (or_introl eq_refl)) as (kb & Hkb & Hlt).
           rewrite Hbest in Hkb. injection Hkb as <-. lia.
        -- apply Hb. now right.
Qed.

Lemma min_from_fails (rest : list A) :
  forall best least,
    min_from key best least rest = None <->
    Exists (fun x => key x = None) rest.
Proof.
  induction rest as [| x rest IH]; intros best least; cbn [min_from].
  - split; [discriminate | intros H; inversion H].
  - destruct (key x) as [kx |] eqn:Hx.
    + destruct (kx <? least)%Z; rewrite IH;
        (split; [now constructor 2 |]);
        intros H; inversion H; subst; congruence || assumption.
    + split; [now constructor 1 | reflexivity].
Qed.

Lemma py_min_least (l : list A) (m : A) :
  py_min key l = Some m ->
  exists before after k,
    l = (before ++ m :: after)%list /\
    key m = Some k /\
    (forall x, In x before -> exists kx, key x = Some kx /\ (k < kx)%Z) /\
    (forall x, In x after -> exists kx, key x = Some kx /\ (k <= kx)%Z).
Proof.
  destruct l as [| x rest]; cbn [py_min]; [discriminate |].
  destruct (key x) as [kx |] eqn:Hx; [| discriminate].
  intros H. destruct (min_from_least rest x kx m Hx H)
    as (before & after & k & Heq & Hm & _ & Hb & Ha).
  exists before, after, k. auto.
Qed.

Lemma py_min_fails (l : list A) :
  py_min key l = None <-> l = [] \/ Exists (fun x => key x = None) l.
Proof.
  destruct l as [| x rest]; cbn [py_min].
  - split; [now left | reflexivity].
  - destruct (key x) as [kx |] eqn:Hx.
    + rewrite min_from_fails. split.
      * intros H. right. now constructor 2.
      * intros [H | H]; [discriminate |].
        inversion H; subst; congruence || assumption.
    + split; [| reflexivity]. intros _. right. now constructor 1.
Qed.

End Midday.

Section MiddayForecast.

Import Forecast.

Variable py_int : string -> option Z.

(** X22.  [midday_forecast] is an entry of the day whose hour is nearest to
    12; of several at the same distance, 9 and 15 o'clock say, it is the one
    that comes first in the list: every entry before it is farther from 12
    and every entry after it is no nearer. *)
Theorem midday_forecast_nearest (forecasts : list json) (midday : json) :
  midday_forecast py_int forecasts = Some midday ->
  exists before after distance,
    forecasts = (before ++ midday :: after)%list /\
    from_midday py_int midday = Some distance /\
    (forall x, In x before ->
       exists dx, from_midday py_int x = Some dx /\ (distance < dx)%Z) /\
    (forall x, In x after ->
       exists dx, from_midday py_int x = Some dx /\ (distance <= dx)%Z).
Proof. apply py_min_least. Qed.

(** X23.  The choice fails on no day for want of entries, since no day of
    [daily_forecasts] is empty: it fails exactly when the hour of some entry
    of the day cannot be read. *)
Theorem midday_forecast_fails_iff (entries : list json)
  (days : list (string * list json)) (date : string) (forecasts : list json) :
  daily_forecasts entries = Some days ->
  In (date, forecasts) days ->
  (midday_forecast py_int forecasts = None <->
   Exists (fun x => hour py_int x = None) forecasts).
Proof.
  intros H Hin. unfold midday_forecast. rewrite py_min_fails.
  assert (Hfilled : forecasts <> []).
  { pose proof (group_filled entries [] days (Forall_nil _) H) as Hall.
    rewrite Forall_forall in Hall. exact (Hall _ Hin). }
  assert (Hkey : forall x, from_midday py_int x = None <-> hour py_int x = None).
  { intros x. unfold from_midday. destruct (hour py_int x); split;
      congruence. }
  split.
  - intros [Hnil | Hex]; [contradiction |].
    apply Exists_exists in Hex as (x & Hx & Hnone).
    apply Exists_exists. exists x. split; [assumption | now apply Hkey].
  - intros Hex. right.
    apply Exists_exists in Hex as (x & Hx & Hnone).
    apply Exists_exists. exists x. split; [assumption | now apply Hkey].
Qed.

End MiddayForecast.

Lemma midday_forecast_nearest_witness :
  exists before after distance,
    [Forecast.entry "2024-01-01 06:00:00"; Forecast.entry "2024-01-01 09:00:00";
     Forecast.entry "2024-01-01 15:00:00"]
    = (before ++ Forecast.entry "2024-01-01 09:00:00" :: after)%list /\
    Forecast.from_midday Forecast.decimal
      (Forecast.entry "2024-01-01 09:00:00") = Some distance /\
    (forall x, In x before ->
       exists dx,
         Forecast.from_midday Forecast.decimal x = Some dx /\
         (distance < dx)%Z) /\
    (forall x, In x after ->
       exists dx,
         Forecast.from_midday Forecast.decimal x = Some dx /\
         (distance <= dx)%Z).
Proof.
  apply (midday_forecast_nearest Forecast.decimal
           [Forecast.entry "2024-01-01 06:00:00";
            Forecast.entry "2024-01-01 09:00:00";
            Forecast.entry "2024-01-01 15:00:00"]
           (Forecast.entry "2024-01-01 09:00:00")).
  vm_compute. reflexivity.
Defined.

Lemma midday_forecast_fails_iff_witness :
  Forecast.midday_forecast Forecast.decimal
    [Forecast.entry "2024-01-01"] = None <->
  Exists (fun x => Forecast.hour Forecast.decimal x = None)
    [Forecast.entry "2024-01-01"].
Proof.
  apply (midday_forecast_fails_iff Forecast.decimal
           [Forecast.entry "2024-01-01"]
           [("2024-01-01", [Forecast.entry "2024-01-01"])] "2024-01-01").
  - vm_compute. reflexivity.
  - now left.
Defined.

(** ** A call without a location in [weather_server.py] *)

(** X24.  Where the other two servers pass on an empty location,
    [call_tool] of [weather_server.py] subscripts the arguments: with the
    key set, a call of a listed tool without [location] comes back as the
    text [Error calling tool '<name>': 'location'], and no exchange with the
    service takes place, whatever the other arguments. *)
Theorem sdk_missing_location (rt other : runtime) (name : string)
  (arguments : dict) :
  no_key (api_key rt) = false ->
  no_key (api_key other) = false ->
  name = "get_current_weather" \/ name = "get_weather_forecast" ->
  dict_lookup "location" arguments = None ->
  Sdk.call_tool rt name arguments
  = [{| Sdk.type := "text";
        Sdk.text := "Error calling tool '" ++ name ++ "': 'location'" |}] /\
  Sdk.call_tool rt name arguments = Sdk.call_tool other name arguments.
Proof.
  intros Hkey Hother Hname Hloc.
  rewrite (sdk_call_tool_missing_location rt name arguments Hkey Hname Hloc).
  rewrite (sdk_call_tool_missing_location other name arguments Hother Hname
             Hloc).
  split; reflexivity.
Qed.

Lemma sdk_missing_location_witness :
  Sdk.call_tool Reference.rt "get_weather_forecast" [("units", JStr "metric")]
  = [{| Sdk.type := "text";
        Sdk.text := "Error calling tool '" ++ "get_weather_forecast"
                    ++ "': 'location'" |}] /\
  Sdk.call_tool Reference.rt "get_weather_forecast" [("units", JStr "metric")]
  = Sdk.call_tool (Reference.world (Some "another-key"))
      "get_weather_forecast" [("units", JStr "metric")].
Proof.
  apply (sdk_missing_location Reference.rt
           (Reference.world (Some "another-key")) "get_weather_forecast"
           [("units", JStr "metric")]).
  - reflexivity.
  - reflexivity.
  - now right.
  - reflexivity.
Defined.
